(** * toleo: upstream and repository version tracking

    A shallow embedding of [toleo/__init__.py].  Python strings are
    [string]s (ASCII), Python objects read from YAML or JSON are [value]s,
    exceptions and [sys.exit] are the [Raise] outcome of a small
    state-and-error monad whose state records what was echoed and which
    calls went to the [requests] library. *)

From Stdlib Require Import String Ascii List Bool Arith Lia ZArith.
From Stdlib Require Import OrderedTypeEx.
Import ListNotations.
Open Scope string_scope.

(** ** Python strings *)

Module PyStr.

Definition tab : string := String (ascii_of_nat 9) "".
Definition esc : string := String (ascii_of_nat 27) "".

(** [c in chars], for a one-character [c]. *)
Fixpoint mem (c : ascii) (chars : string) : bool :=
  match chars with
  | "" => false
  | String d rest => Ascii.eqb c d || mem c rest
  end.

(** [s.rstrip(chars)]: drop every trailing character that occurs in
    [chars]. *)
Fixpoint rstrip (s chars : string) : string :=
  match s with
  | "" => ""
  | String c rest =>
      let r := rstrip rest chars in
      if (r =? "") && mem c chars then "" else String c r
  end.

(** [sub in s] for strings. *)
Fixpoint contains (sub s : string) : bool :=
  prefix sub s ||
  match s with
  | "" => false
  | String _ rest => contains sub rest
  end.

(** [s * n] *)
Fixpoint repeat (s : string) (n : nat) : string :=
  match n with
  | O => ""
  | S k => s ++ repeat s k
  end.

Definition is_digit (c : ascii) : bool :=
  (48 <=? nat_of_ascii c)%nat && (nat_of_ascii c <=? 57)%nat.

Definition is_lower (c : ascii) : bool :=
  (97 <=? nat_of_ascii c)%nat && (nat_of_ascii c <=? 122)%nat.

Definition is_upper (c : ascii) : bool :=
  (65 <=? nat_of_ascii c)%nat && (nat_of_ascii c <=? 90)%nat.

Definition lower_char (c : ascii) : ascii :=
  if is_upper c then ascii_of_nat (nat_of_ascii c + 32) else c.

(** [s.lower()] *)
Fixpoint lower (s : string) : string :=
  match s with
  | "" => ""
  | String c rest => String (lower_char c) (lower rest)
  end.

(** [s.zfill(width)] for a string without a sign. *)
Definition zfill (width : nat) (s : string) : string :=
  repeat "0" (width - String.length s) ++ s.

(** [s.startswith(p)] *)
Definition startswith (p s : string) : bool := prefix p s.

(** The last character, when there is one. *)
Fixpoint last_char (s : string) : option ascii :=
  match s with
  | "" => None
  | String c "" => Some c
  | String _ rest => last_char rest
  end.

End PyStr.

(** ** [pkg_resources.parse_version]

    The version parser is the one of setuptools; the code only calls it.
    This is the parser of the setuptools releases contemporary with the
    code: a version is a tuple of strings, and tuples compare
    lexicographically. *)

Module PkgResources.
Import PyStr.

Inductive cclass := CDigit | CAlpha | CDot | CDash | COther.

Definition classify (c : ascii) : cclass :=
  if is_digit c then CDigit
  else if is_lower c then CAlpha
  else if Ascii.eqb c "." then CDot
  else if Ascii.eqb c "-" then CDash
  else COther.

(** One character of [component_re.split], with
    [component_re = (\d+ | [a-z]+ | \. | -)]: [txt] is the text since the
    last separator, [cur] the run of digits or of letters being read.
    Returns the pieces that are complete, and the new [txt] and [cur]. *)
Definition split_step (c : ascii) (txt : string) (cur : option (cclass * string))
  : list string * string * option (cclass * string) :=
  let k := classify c in
  let one := String c "" in
  match cur, k with
  | Some (CDigit, run), CDigit => ([], txt, Some (CDigit, run ++ one))
  | Some (CAlpha, run), CAlpha => ([], txt, Some (CAlpha, run ++ one))
  | _, _ =>
      let '(out, txt0) :=
        match cur with
        | Some (_, run) => ([txt; run], "")
        | None => ([], txt)
        end in
      match k with
      | CDigit | CAlpha => (out, txt0, Some (k, one))
      | CDot | CDash => ((out ++ [txt0; one])%list, "", None)
      | COther => (out, txt0 ++ one, None)
      end
  end.

Fixpoint split_go (s txt : string) (cur : option (cclass * string)) : list string :=
  match s with
  | "" =>
      match cur with
      | Some (_, run) => [txt; run; ""]
      | None => [txt]
      end
  | String c rest =>
      let '(out, txt', cur') := split_step c txt cur in
      (out ++ split_go rest txt' cur')%list
  end.

(** [component_re.split(s)]: the text between separators alternates with
    the separators themselves. *)
Definition component_split (s : string) : list string := split_go s "" None.

(** [replace = {'pre':'c', 'preview':'c', '-':'final-', 'rc':'c',
    'dev':'@'}.get], called as [replace(part, part)]. *)
Definition replace (part : string) : string :=
  if part =? "pre" then "c"
  else if part =? "preview" then "c"
  else if part =? "-" then "final-"
  else if part =? "rc" then "c"
  else if part =? "dev" then "@"
  else part.

Definition first_is_digit (part : string) : bool :=
  match part with
  | "" => true
  | String c _ => mem c "0123456789"
  end.

Fixpoint parts_of (pieces : list string) : list string :=
  match pieces with
  | [] => ["*final"]
  | piece :: rest =>
      let part := replace piece in
      if (part =? "") || (part =? ".") then parts_of rest
      else if first_is_digit part then zfill 8 part :: parts_of rest
      else ("*" ++ part) :: parts_of rest
  end.

Definition _parse_version_parts (s : string) : list string :=
  parts_of (component_split s).

(** [while parts and parts[-1] == x: parts.pop()], on the reversed list. *)
Fixpoint pop_while (x : string) (parts_rev : list string) : list string :=
  match parts_rev with
  | [] => []
  | y :: rest => if y =? x then pop_while x rest else parts_rev
  end.

Definition parse_step (parts_rev : list string) (part : string) : list string :=
  let kept :=
    if startswith "*" part then
      let p1 := if String.ltb part "*final"
                then pop_while "*final-" parts_rev else parts_rev in
      pop_while "00000000" p1
    else parts_rev in
  part :: kept.

Definition parse_version (s : string) : list string :=
  rev (fold_left parse_step (_parse_version_parts (lower s)) []).

(** Tuples of strings compare lexicographically, strings by code point. *)
Definition tuple_compare : list string -> list string -> comparison :=
  list_compare String.compare.

End PkgResources.

Import PyStr PkgResources.

(** ** Python objects, exceptions and effects *)

(** What [yaml.load] and [Response.json] return, and what [re.findall]
    yields (strings, or tuples of strings when the pattern has several
    groups; a tuple is a [VList]). *)
#[warnings="-register-all"] Inductive value : Type :=
| VNone
| VBool (b : bool)
| VInt (z : Z)
| VStr (s : string)
| VList (l : list value)
| VDict (d : list (string * value)).

(** A mapping with string keys, in iteration order. *)
Definition dict := list (string * value).

Inductive exn : Type :=
| AttributeError
| TypeError
| KeyError
| SystemExit (msg : string)   (* [sys.exit(msg)] *)
| LibraryError (what : string).   (* raised inside requests, yaml, re, pathlib *)

Inductive result (A : Type) : Type :=
| Ok (a : A)
| Raise (e : exn).
Arguments Ok {A} a.
Arguments Raise {A} e.

Definition rbind {A B} (r : result A) (k : A -> result B) : result B :=
  match r with
  | Ok a => k a
  | Raise e => Raise e
  end.

Notation "x <-- c ;; k" := (rbind c (fun x => k))
  (at level 61, c at next level, right associativity).

(** The calls made into the [requests] library. *)
Inductive request : Type :=
| ReqGet (url : value)                                   (* [requests.get(url)] *)
| ReqHead (url : value)                                  (* [requests.head(url)] *)
| ReqGetParams (url : string) (params : list (string * string)).
                                                  (* [requests.get(url, params=...)] *)

Record state := mkState {
  stdout : list string;    (* the lines given to [click.echo], oldest first *)
  net : list request       (* the calls into [requests], oldest first *)
}.

Definition init_state : state := mkState [] [].

Definition M (A : Type) : Type := state -> result A * state.

Definition ret {A} (a : A) : M A := fun st => (Ok a, st).

Definition raise {A} (e : exn) : M A := fun st => (Raise e, st).

Definition bind {A B} (m : M A) (k : A -> M B) : M B :=
  fun st =>
    match m st with
    | (Ok a, st') => k a st'
    | (Raise e, st') => (Raise e, st')
    end.

Notation "x <- c ;; k" := (bind c (fun x => k))
  (at level 61, c at next level, right associativity).
Notation "c ;;; k" := (bind c (fun _ => k))
  (at level 61, right associativity).

Definition lift {A} (r : result A) : M A := fun st => (r, st).

(** [click.echo(msg)] *)
Definition echo (msg : string) : M unit :=
  fun st => (Ok tt, mkState (stdout st ++ [msg]) (net st)).

Definition sent (r : request) : M unit :=
  fun st => (Ok tt, mkState (stdout st) (net st ++ [r])).

(** [if c: body] *)
Definition when (c : bool) (body : M unit) : M unit :=
  if c then body else ret tt.

(** [for x in l: body(x)] *)
Fixpoint for_each {A} (l : list A) (body : A -> M unit) : M unit :=
  match l with
  | [] => ret tt
  | x :: rest => body x ;;; for_each rest body
  end.

Module Py.

(** [d.get(k)] on a mapping. *)
Fixpoint dict_get (d : dict) (k : string) : option value :=
  match d with
  | [] => None
  | (k', v) :: rest => if k' =? k then Some v else dict_get rest k
  end.

(** [d[k] = v]: an existing key keeps its place. *)
Fixpoint dict_set (d : dict) (k : string) (v : value) : dict :=
  match d with
  | [] => [(k, v)]
  | (k', v') :: rest =>
      if k' =? k then (k', v) :: rest else (k', v') :: dict_set rest k v
  end.

(** [d[k]] *)
Definition getitem (d : dict) (k : string) : result value :=
  match dict_get d k with
  | Some v => Ok v
  | None => Raise KeyError
  end.

Definition keys (d : dict) : list string := map fst d.

(** [d.get(k)] with [None] for a missing key. *)
Definition get_or_none (d : dict) (k : string) : value :=
  match dict_get d k with
  | Some v => v
  | None => VNone
  end.

(** [v.get(k)] on any object: only a mapping has the method. *)
Definition get (v : value) (k : string) : result value :=
  match v with
  | VDict d => Ok (get_or_none d k)
  | _ => Raise AttributeError
  end.

(** [v.rstrip(chars)] on any object: only a string has the method. *)
Definition rstrip (v : value) (chars : string) : result string :=
  match v with
  | VStr s => Ok (PyStr.rstrip s chars)
  | _ => Raise AttributeError
  end.

(** Truth value of an object, as [if v:] tests it. *)
Definition truthy (v : value) : bool :=
  match v with
  | VNone => false
  | VBool b => b
  | VInt z => negb (Z.eqb z 0)
  | VStr s => negb (s =? "")
  | VList l => match l with [] => false | _ => true end
  | VDict d => match d with [] => false | _ => true end
  end.

End Py.

(** ** The world outside the program

    The libraries the code calls and what they find: the file system, the
    network, the regular-expression engine.  Every theorem below that
    quantifies over a [World] holds whatever these do. *)
Record World := mkWorld {
  (* [click.get_app_dir(name)] *)
  get_app_dir : string -> string;
  (* [pathlib.Path(s)], [p / name], [p.with_suffix(sfx)], as the path's text *)
  Path : string -> string;
  path_div : string -> string -> string;
  with_suffix : string -> string -> result string;
  (* [p.is_file()] and [yaml.load(p.open())] *)
  is_file : string -> bool;
  yaml_load : string -> result dict;
  (* [requests.get(url).text], [requests.head(url).headers],
     [requests.get(url, params=payload).json()] *)
  requests_get_text : value -> result string;
  requests_head_headers : value -> result (list (string * string));
  requests_get_json : string -> list (string * string) -> result value;
  (* [json.dumps(dict(headers))] *)
  json_dumps : list (string * string) -> string;
  (* [re.findall(pattern, text)] *)
  re_findall : value -> string -> result (list value);
  (* [str(v)] for an object that is not a string *)
  py_str : value -> string
}.

(** [click.style(msg, fg='red', bold=True)] *)
Definition click_style_red_bold (msg : string) : string :=
  (esc ++ "[31m") ++ (esc ++ "[1m") ++ msg ++ (esc ++ "[0m").

(** ** class [Toleo] *)

Record Toleo := mkToleo {
  debug : bool;
  collection : string;
  path_override : option string;
  limit : option string;
  cfg_path : string;
  cfg : dict;
  line : string
}.

Definition aur_rpc_url : string := "https://aur.archlinux.org/rpc.php".

Section Program.

Variable W : World.

(** ['{}'.format(v)] *)
Definition format (v : value) : string :=
  match v with
  | VStr s => s
  | _ => py_str W v
  end.

(** [Toleo.find_config], from the two attributes it reads. *)
Definition find_config (path_override : option string) (collection : string)
  : result string :=
  let dir_name :=
    match path_override with
    | Some p => if p =? "" then get_app_dir W "toleo" else p
    | None => get_app_dir W "toleo"
    end in
  let dir_path := Path W dir_name in
  cfg_path <-- with_suffix W (path_div W dir_path collection) ".yaml" ;;
  Ok cfg_path.

(** The loop of [read_config] that keeps the keys containing [limit]. *)
Fixpoint limit_loop (limit : string) (full_cfg : dict) (ks : list string)
    (cfg : dict) : result dict :=
  match ks with
  | [] => Ok cfg
  | key :: rest =>
      if contains limit key then
        v <-- Py.getitem full_cfg key ;;
        limit_loop limit full_cfg rest (Py.dict_set cfg key v)
      else limit_loop limit full_cfg rest cfg
  end.

(** [Toleo.read_config], from the two attributes it reads. *)
Definition read_config (cfg_path : string) (limit : option string) : result dict :=
  full_cfg <--
    (if is_file W cfg_path then yaml_load W cfg_path
     else
       let msg := "cannot read " ++ cfg_path in
       let formatted_msg := click_style_red_bold msg in
       Raise (SystemExit formatted_msg)) ;;
  match limit with
  | None => Ok full_cfg
  | Some l => limit_loop l full_cfg (Py.keys full_cfg) []
  end.

(** [Toleo.__init__] *)
Definition Toleo_init (debug : bool) (collection : string)
    (path_override limit : option string) : M Toleo :=
  cfg_path <- lift (find_config path_override collection) ;;
  cfg <- lift (read_config cfg_path limit) ;;
  ret (mkToleo debug collection path_override limit cfg_path cfg
         (PyStr.repeat "-" 50)).

(** [Toleo.scrape] *)
Definition scrape (url use_headers : value) : M string :=
  if Py.truthy use_headers then
    sent (ReqHead url) ;;;
    headers <- lift (requests_head_headers W url) ;;
    ret (json_dumps W headers)
  else
    sent (ReqGet url) ;;;
    lift (requests_get_text W url).

(** [pkg_resources.parse_version(v)]: its first step is [v.lower()]. *)
Definition parse_version_obj (v : value) : result (list string) :=
  match v with
  | VStr s => Ok (parse_version s)
  | _ => Raise AttributeError
  end.

(** [Toleo.ver_compare] *)
Definition ver_compare (a b : value) : result (option string) :=
  a_ver <-- parse_version_obj a ;;
  b_ver <-- parse_version_obj b ;;
  match tuple_compare a_ver b_ver with
  | Eq => Ok (Some "eq")
  | Gt => Ok (Some "gt")
  | Lt => Ok (Some "lt")
  end.

(** [Toleo.aur_api] *)
Definition aur_api (method data : string) : M value :=
  let payload := [("type", method); ("arg", data)] in
  sent (ReqGetParams aur_rpc_url payload) ;;;
  lift (requests_get_json W aur_rpc_url payload).

(** [x == 'gt'] for what [ver_compare] returns. *)
Definition is_gt (c : option string) : bool :=
  match c with
  | Some s => s =? "gt"
  | None => false
  end.

(** The [for match in matches] loop of [upstream_version]. *)
Fixpoint version_loop (matches : list value) (version : string) : result string :=
  match matches with
  | [] => Ok version
  | mtch :: rest =>
      c <-- ver_compare mtch (VStr version) ;;
      if is_gt c then version_loop rest (format mtch ++ "-0")
      else version_loop rest version
  end.

(** [Toleo.upstream_version] *)
Definition upstream_version (self : Toleo) (pkg_name : string) : M string :=
  upstream <- lift (Py.get (Py.get_or_none (cfg self) pkg_name) "upstream") ;;
  url <- lift (Py.get upstream "url") ;;
  parser <- lift (Py.get upstream "parser") ;;
  pattern <- lift (Py.get upstream "pattern") ;;
  use_headers <- lift (Py.get upstream "use_headers") ;;
  result <- scrape url use_headers ;;
  matches <- lift (re_findall W pattern result) ;;
  when (debug self)
    (echo ("url:" ++ tab ++ tab ++ format url) ;;;
     echo ("parser:" ++ tab ++ tab ++ format parser) ;;;
     echo ("use_headers:" ++ tab ++ format use_headers) ;;;
     echo ("matches:" ++ tab ++ format (VList matches))) ;;;
  lift (version_loop matches "").

(** [Toleo.repo_version] *)
Definition repo_version (self : Toleo) (pkg_name : string) : M value :=
  repo <- lift (Py.get (Py.get_or_none (cfg self) pkg_name) "repo") ;;
  url <- lift (Py.get repo "url") ;;
  parser <- lift (Py.get repo "parser") ;;
  data <- aur_api "info" pkg_name ;;
  result <- lift (Py.get data "results") ;;
  version <- lift (Py.get result "Version") ;;
  ret version.

(** The body of the loop of [action_upstream], for one package. *)
Definition upstream_block (self : Toleo) (pkg_name : string) : M unit :=
  echo ("package:" ++ tab ++ pkg_name) ;;;
  src_version <- upstream_version self pkg_name ;;
  echo ("upstream:" ++ tab ++ PyStr.rstrip src_version "-0") ;;;
  echo (line self).

(** [Toleo.action_upstream] *)
Definition action_upstream (self : Toleo) : M unit :=
  echo (line self) ;;;
  for_each (Py.keys (cfg self)) (upstream_block self).

(** The body of the loop of [action_repo], for one package. *)
Definition repo_block (self : Toleo) (pkg_name : string) : M unit :=
  echo ("package:" ++ tab ++ pkg_name) ;;;
  pkg_version <- repo_version self pkg_name ;;
  shown <- lift (Py.rstrip pkg_version "-0") ;;
  echo ("repo:" ++ tab ++ tab ++ shown) ;;;
  echo (line self).

(** [Toleo.action_repo] *)
Definition action_repo (self : Toleo) : M unit :=
  echo (line self) ;;;
  for_each (Py.keys (cfg self)) (repo_block self).

(** The body of the loop of [action_compare], for one package. *)
Definition compare_block (self : Toleo) (pkg_name : string) : M unit :=
  echo ("package:" ++ tab ++ pkg_name) ;;;
  src_version <- upstream_version self pkg_name ;;
  echo ("upstream:" ++ tab ++ PyStr.rstrip src_version "-0") ;;;
  pkg_version <- repo_version self pkg_name ;;
  shown <- lift (Py.rstrip pkg_version "-0") ;;
  echo ("repo:" ++ tab ++ tab ++ shown) ;;;
  echo (line self).

(** [Toleo.action_compare] *)
Definition action_compare (self : Toleo) : M unit :=
  echo (line self) ;;;
  for_each (Py.keys (cfg self)) (compare_block self).

(** [cli], the entry point. *)
Definition cli (action : string) (debug : bool) (collection : string)
    (path_override limit : option string) : M unit :=
  app <- Toleo_init debug collection path_override limit ;;
  if action =? "upstream" then action_upstream app
  else if action =? "repo" then action_repo app
  else if action =? "compare" then action_compare app
  else ret tt.

End Program.

(** ** A regular-expression engine

    [re.findall] for a fragment of Python's pattern syntax: literals, [.],
    [\d], [\w], escaped punctuation, character sets, groups, [|] and the
    greedy [*], [+], [?].  It is the engine of the concrete worlds below;
    a pattern outside the fragment is refused. *)

Module Re.

Inductive regex : Type :=
| Eps
| Chr (c : ascii)
| AnyChar
| Class (neg : bool) (ranges : list (ascii * ascii))
| Seq (r1 r2 : regex)
| Alt (r1 r2 : regex)
| Star (r : regex)
| Group (i : nat) (r : regex).

Definition in_range (c : ascii) (rg : ascii * ascii) : bool :=
  (nat_of_ascii (fst rg) <=? nat_of_ascii c)%nat &&
  (nat_of_ascii c <=? nat_of_ascii (snd rg))%nat.

Definition class_matches (neg : bool) (ranges : list (ascii * ascii)) (c : ascii) : bool :=
  xorb neg (existsb (in_range c) ranges).

Definition captures := list (nat * string).

(** The text between [s] and its suffix [s1]. *)
Definition taken (s s1 : string) : string :=
  substring 0 (String.length s - String.length s1) s.

(** Backtracking matcher: [k] receives the rest of the text and the
    captures; the first success in priority order wins. *)
Fixpoint run {R : Type} (r : regex) (s : string) (caps : captures)
    (k : string -> captures -> option R) : option R :=
  match r with
  | Eps => k s caps
  | Chr c =>
      match s with
      | String d t => if Ascii.eqb c d then k t caps else None
      | "" => None
      end
  | AnyChar =>
      match s with
      | String d t => if Ascii.eqb d (ascii_of_nat 10) then None else k t caps
      | "" => None
      end
  | Class neg ranges =>
      match s with
      | String d t => if class_matches neg ranges d then k t caps else None
      | "" => None
      end
  | Seq r1 r2 => run r1 s caps (fun s1 c1 => run r2 s1 c1 k)
  | Alt r1 r2 =>
      match run r1 s caps k with
      | Some x => Some x
      | None => run r2 s caps k
      end
  | Star r1 =>
      (fix loop (n : nat) (s : string) (caps : captures) : option R :=
         match n with
         | O => k s caps
         | S n' =>
             match run r1 s caps
                     (fun s1 c1 =>
                        if (String.length s1 <? String.length s)%nat
                        then loop n' s1 c1 else None) with
             | Some x => Some x
             | None => k s caps
             end
         end) (String.length s) s caps
  | Group i r1 => run r1 s caps (fun s1 c1 => k s1 ((i, taken s s1) :: c1))
  end.

Definition is_alnum (c : ascii) : bool :=
  is_digit c || is_lower c || is_upper c.

Definition word_class : regex :=
  Class false [("a", "z"); ("A", "Z"); ("0", "9"); ("_", "_")]%char.

Definition digit_class : regex := Class false [("0", "9")]%char.

(** [\c] outside a set. *)
Definition escape (c : ascii) : option regex :=
  if Ascii.eqb c "d" then Some digit_class
  else if Ascii.eqb c "w" then Some word_class
  else if is_alnum c then None
  else Some (Chr c).

(** The items of a set, up to the closing bracket. *)
Fixpoint parse_set (s : string) (acc : list (ascii * ascii))
  : option (list (ascii * ascii) * string) :=
  match s with
  | "" => None
  | String "]" rest => match acc with [] => None | _ => Some (rev acc, rest) end
  | String "\" (String c rest) =>
      if Ascii.eqb c "d" then parse_set rest (("0", "9")%char :: acc)
      else if Ascii.eqb c "w" then
        parse_set rest (rev [("a", "z"); ("A", "Z"); ("0", "9"); ("_", "_")]%char ++ acc)%list
      else if is_alnum c then None
      else parse_set rest ((c, c) :: acc)
  | String "\" "" => None
  | String a (String "-" (String b rest)) =>
      if Ascii.eqb b "]" then Some (rev (("-", "-")%char :: (a, a) :: acc), rest)
      else if Ascii.eqb b "\" then None
      else parse_set rest ((a, b) :: acc)
  | String a rest => parse_set rest ((a, a) :: acc)
  end.

Definition is_special (c : ascii) : bool := mem c "()|*+?{^$[\.".

(** Can the expression match the empty text?  A repetition of such an
    expression is outside the fragment. *)
Fixpoint nullable (r : regex) : bool :=
  match r with
  | Eps | Star _ => true
  | Chr _ | AnyChar | Class _ _ => false
  | Seq r1 r2 => nullable r1 && nullable r2
  | Alt r1 r2 => nullable r1 || nullable r2
  | Group _ r1 => nullable r1
  end.

(** Recursive descent: each parser returns the expression, the rest of the
    pattern and the number of groups opened so far. *)
Fixpoint parse_alt (fuel : nat) (s : string) (g : nat) : option (regex * string * nat) :=
  match fuel with
  | O => None
  | S f =>
      match parse_seq f s g with
      | Some (r1, String "|" rest, g1) =>
          match parse_alt f rest g1 with
          | Some (r2, rest2, g2) => Some (Alt r1 r2, rest2, g2)
          | None => None
          end
      | other => other
      end
  end
with parse_seq (fuel : nat) (s : string) (g : nat) : option (regex * string * nat) :=
  match fuel with
  | O => None
  | S f =>
      match s with
      | "" => Some (Eps, s, g)
      | String "|" _ => Some (Eps, s, g)
      | String ")" _ => Some (Eps, s, g)
      | _ =>
          match parse_atom f s g with
          | Some (a, rest, g1) =>
              let quantified :=
                match rest with
                | String "*" rest1 =>
                    if nullable a then None else Some (Star a, rest1)
                | String "+" rest1 =>
                    if nullable a then None else Some (Seq a (Star a), rest1)
                | String "?" rest1 => Some (Alt a Eps, rest1)
                | _ => Some (a, rest)
                end in
              match quantified with
              | Some (q, rest1) =>
                  match rest1 with
                  | String "*" _ | String "+" _ | String "?" _ => None
                  | _ =>
                      match parse_seq f rest1 g1 with
                      | Some (r, rest2, g2) => Some (Seq q r, rest2, g2)
                      | None => None
                      end
                  end
              | None => None
              end
          | None => None
          end
      end
  end
with parse_atom (fuel : nat) (s : string) (g : nat) : option (regex * string * nat) :=
  match fuel with
  | O => None
  | S f =>
      match s with
      | "" => None
      | String "(" (String "?" _) => None
      | String "(" rest =>
          match parse_alt f rest (S g) with
          | Some (r, String ")" rest1, g1) => Some (Group (S g) r, rest1, g1)
          | _ => None
          end
      | String "\" (String c rest) =>
          match escape c with
          | Some r => Some (r, rest, g)
          | None => None
          end
      | String "." rest => Some (AnyChar, rest, g)
      | String "[" (String "^" rest) =>
          match parse_set rest [] with
          | Some (ranges, rest1) => Some (Class true ranges, rest1, g)
          | None => None
          end
      | String "[" rest =>
          match parse_set rest [] with
          | Some (ranges, rest1) => Some (Class false ranges, rest1, g)
          | None => None
          end
      | String c rest => if is_special c then None else Some (Chr c, rest, g)
      end
  end.

(** [re.compile(pattern)]: the expression and its number of groups. *)
Definition compile (pattern : string) : option (regex * nat) :=
  match parse_alt (4 * String.length pattern + 4) pattern 0 with
  | Some (r, "", g) => Some (r, g)
  | _ => None
  end.

Fixpoint group_text (caps : captures) (i : nat) : string :=
  match caps with
  | [] => ""
  | (j, txt) :: rest => if (j =? i)%nat then txt else group_text rest i
  end.

(** What [findall] yields for one match: the whole match without groups,
    the group when there is one, the tuple of groups otherwise. *)
Definition item (groups : nat) (whole : string) (caps : captures) : value :=
  match groups with
  | O => VStr whole
  | S O => VStr (group_text caps 1)
  | _ => VList (map (fun i => VStr (group_text caps i)) (seq 1 groups))
  end.

(** Scan from the left; after a match go on at its end, one character
    further when it was empty. *)
Fixpoint findall_go (fuel : nat) (r : regex) (groups : nat) (s : string) : list value :=
  match fuel with
  | O => []
  | S f =>
      match run r s [] (fun s1 c1 => Some (s1, c1)) with
      | Some (s1, c1) =>
          let found := item groups (taken s s1) c1 in
          if (String.length s1 <? String.length s)%nat
          then found :: findall_go f r groups s1
          else
            match s with
            | "" => [found]
            | String _ t => found :: findall_go f r groups t
            end
      | None =>
          match s with
          | "" => []
          | String _ t => findall_go f r groups t
          end
      end
  end.

(** [re.findall(pattern, text)] *)
Definition findall (pattern : value) (text : string) : result (list value) :=
  match pattern with
  | VStr p =>
      match compile p with
      | Some (r, groups) => Ok (findall_go (S (String.length text)) r groups text)
      | None => Raise (LibraryError "re.error")
      end
  | _ => Raise TypeError
  end.

End Re.

(** ** Concrete worlds

    A world given by tables: the configuration files that exist, the pages
    and headers the upstream hosts serve, and the versions the AUR knows.
    Paths are POSIX path texts in normal form. *)

Module Tables.

Fixpoint lookup {A : Type} (k : string) (t : list (string * A)) : option A :=
  match t with
  | [] => None
  | (k', a) :: rest => if k' =? k then Some a else lookup k rest
  end.

(** [p / name] *)
Definition div (p name : string) : string :=
  if prefix "/" name then name else p ++ "/" ++ name.

(** The text after the last [/] of a path, read from its end. *)
Fixpoint name_rev (p_rev : list ascii) : list ascii :=
  match p_rev with
  | [] => []
  | c :: rest => if Ascii.eqb c "/" then [] else c :: name_rev rest
  end.

(** The length of the suffix of a file name: from its last dot, when that
    dot is neither the first nor the last character of the name. *)
Fixpoint suffix_len (name_rev : list ascii) (seen : nat) : nat :=
  match name_rev with
  | [] => 0
  | c :: rest =>
      if Ascii.eqb c "."
      then match rest, seen with
           | [], _ => 0
           | _, O => 0
           | _, _ => S seen
           end
      else suffix_len rest (S seen)
  end.

(** [p.with_suffix(sfx)] *)
Definition suffixed (p sfx : string) : result string :=
  let name := name_rev (rev (list_ascii_of_string p)) in
  match name with
  | [] => Raise (LibraryError "ValueError")
  | _ =>
      let keep := String.length p - suffix_len name 0 in
      Ok (substring 0 keep p ++ sfx)
  end.

(** [json.dumps] of a mapping of plain strings. *)
Definition quote : string := String (ascii_of_nat 34) "".

Definition dumps_item (kv : string * string) : string :=
  quote ++ fst kv ++ quote ++ ": " ++ quote ++ snd kv ++ quote.

Fixpoint dumps_items (items : list (string * string)) : string :=
  match items with
  | [] => ""
  | [kv] => dumps_item kv
  | kv :: rest => dumps_item kv ++ ", " ++ dumps_items rest
  end.

Definition dumps (items : list (string * string)) : string :=
  "{" ++ dumps_items items ++ "}".

(** [str(v)], lists and mappings shown without their elements. *)
Definition show (v : value) : string :=
  match v with
  | VNone => "None"
  | VBool true => "True"
  | VBool false => "False"
  | VInt _ => "<int>"
  | VStr s => s
  | VList _ => "<list>"
  | VDict _ => "<dict>"
  end.

(** The reply of the AUR to [type=info]: the package's record, or an empty
    list of results for a package it does not know. *)
Definition aur_reply (aur : list (string * string)) (params : list (string * string))
  : result value :=
  match params with
  | [(t, method); (a, name)] =>
      if (t =? "type") && (a =? "arg") && (method =? "info") then
        match lookup name aur with
        | Some v =>
            Ok (VDict [("version", VInt 1); ("type", VStr "info");
                       ("resultcount", VInt 1);
                       ("results", VDict [("Name", VStr name); ("Version", VStr v)])])
        | None =>
            Ok (VDict [("version", VInt 1); ("type", VStr "info");
                       ("resultcount", VInt 0); ("results", VList [])])
        end
      else Raise (LibraryError "requests.HTTPError")
  | _ => Raise (LibraryError "requests.HTTPError")
  end.

Definition world (app_dir : string) (files : list (string * dict))
    (pages : list (string * string))
    (headers : list (string * list (string * string)))
    (aur : list (string * string)) : World :=
  {| get_app_dir := fun _ => app_dir;
     Path := fun s => s;
     path_div := div;
     with_suffix := suffixed;
     is_file := fun p => match lookup p files with Some _ => true | None => false end;
     yaml_load := fun p =>
       match lookup p files with
       | Some d => Ok d
       | None => Raise (LibraryError "FileNotFoundError")
       end;
     requests_get_text := fun url =>
       match url with
       | VStr u =>
           match lookup u pages with
           | Some text => Ok text
           | None => Raise (LibraryError "requests.ConnectionError")
           end
       | _ => Raise (LibraryError "requests.MissingSchema")
       end;
     requests_head_headers := fun url =>
       match url with
       | VStr u =>
           match lookup u headers with
           | Some h => Ok h
           | None => Raise (LibraryError "requests.ConnectionError")
           end
       | _ => Raise (LibraryError "requests.MissingSchema")
       end;
     requests_get_json := fun url params =>
       if url =? aur_rpc_url then aur_reply aur params
       else Raise (LibraryError "requests.ConnectionError");
     json_dumps := dumps;
     re_findall := Re.findall;
     py_str := show |}.

End Tables.

(** ** Example collections

    One world with a handful of collections in the application directory;
    the first is the scenario of the widget package. *)

Module Examples.

Definition app_dir : string := "/home/user/.config/toleo".

Definition repo_record : value :=
  VDict [("url", VStr "https://aur.archlinux.org/packages"); ("parser", VStr "aur")].

Definition upstream_record (url pattern : string) : value :=
  VDict [("url", VStr url); ("pattern", VStr pattern);
         ("parser", VStr "regex"); ("use_headers", VBool false)].

Definition package (url pattern : string) : value :=
  VDict [("upstream", upstream_record url pattern); ("repo", repo_record)].

Definition widget_url : string := "http://example.test/widget".

Definition default_cfg : dict :=
  [("widget", package widget_url "v(\d+\.\d+\.\d+)")].

(** A pattern that matches nothing in the widget page. *)
Definition quiet_cfg : dict :=
  [("widget", package widget_url "release (\d+)")].

(** A package without an upstream record, and one without a repo record. *)
Definition bare_cfg : dict :=
  [("widget", VDict [("repo", repo_record)])].

Definition norepo_cfg : dict :=
  [("widget", VDict [("upstream", upstream_record widget_url "v(\d+\.\d+\.\d+)")])].

Definition series_cfg : dict :=
  [("tool", package "http://example.test/tool" "\d+\.\d+\.\d+[-\w]*")].

Definition dash_cfg : dict :=
  [("lib", package "http://example.test/lib" "\d+\.\d+-?\d*")].

Definition foo_cfg : dict :=
  [("foobar", package "http://example.test/foobar" "foobar-(\d+\.\d+)");
   ("foo-lib", package "http://example.test/foo-lib" "foo-lib-(\d+\.\d+)");
   ("baz", package "http://example.test/baz" "baz-(\d+\.\d+)")].

Definition files : list (string * dict) :=
  [ (app_dir ++ "/default.yaml", default_cfg);
    (app_dir ++ "/quiet.yaml", quiet_cfg);
    (app_dir ++ "/bare.yaml", bare_cfg);
    (app_dir ++ "/norepo.yaml", norepo_cfg);
    (app_dir ++ "/series.yaml", series_cfg);
    (app_dir ++ "/dash.yaml", dash_cfg);
    (app_dir ++ "/foo.yaml", foo_cfg) ].

Definition pages : list (string * string) :=
  [ (widget_url, "download v1.4.0 now");
    ("http://example.test/tool", "1.2.0 1.3.0-rc1 1.2.5");
    ("http://example.test/lib", "lib 1.2 and lib 1.2-0");
    ("http://example.test/foobar", "foobar-2.1.tar.gz");
    ("http://example.test/foo-lib", "foo-lib-0.9.tar.gz");
    ("http://example.test/baz", "baz-3.3.tar.gz") ].

Definition aur : list (string * string) :=
  [ ("widget", "1.4.0-1"); ("tool", "1.2.5-2"); ("lib", "1.2-1");
    ("foobar", "2.1-1"); ("foo-lib", "0.9-3"); ("baz", "3.3-1") ].

Definition demo : World := Tables.world app_dir files pages [] aur.

Definition divider : string := PyStr.repeat "-" 50.

(** The application object of a collection, as [Toleo.__init__] leaves it
    when the collection's file is read without a limit. *)
Definition app (collection : string) (cfg : dict) : Toleo :=
  mkToleo false collection None None
    (app_dir ++ "/" ++ collection ++ ".yaml") cfg divider.

End Examples.

(** ** The claims of the specification, as the specification words them *)

(** The display rule of the specification: the version with exactly a
    trailing [-0] removed. *)
Fixpoint spec_strip_release_suffix (s : string) : string :=
  if s =? "-0" then ""
  else match s with
       | "" => ""
       | String c rest => String c (spec_strip_release_suffix rest)
       end.

(** Does the definition of a package hold a mapping under [key]? *)
Definition has_record (key : string) (defn : value) : bool :=
  match defn with
  | VDict d =>
      match Py.dict_get d key with
      | Some (VDict _) => true
      | _ => false
      end
  | _ => false
  end.

(** Does the version end in a character that [rstrip('-0')] removes? *)
Definition trimmed_end (s : string) : bool :=
  match last_char s with
  | Some c => mem c "-0"
  | None => false
  end.

(** The report the specification expects of [compare] for the widget
    scenario. *)
Definition spec_widget_report : list string :=
  [ Examples.divider; "package:" ++ tab ++ "widget";
    "upstream:" ++ tab ++ "1.4.0"; "repo:" ++ tab ++ tab ++ "1.4.0";
    Examples.divider ].

(** The lines of a report. *)
Definition package_line (pkg_name : string) : string := "package:" ++ tab ++ pkg_name.
Definition upstream_line (shown : string) : string := "upstream:" ++ tab ++ shown.
Definition repo_line (shown : string) : string := "repo:" ++ tab ++ tab ++ shown.

(** What a computation adds to the state it starts from. *)
Definition plus (st d : state) : state :=
  mkState (stdout st ++ stdout d) (net st ++ net d).

(** A computation whose outcome does not depend on the state it starts
    from, and which only appends to it. *)
Definition framed {A : Type} (m : M A) : Prop :=
  forall st, m st = (fst (m init_state), plus st (snd (m init_state))).

(** ** Vocabulary of the further properties *)

(** The application object with another [debug] flag. *)
Definition with_debug (self : Toleo) (flag : bool) : Toleo :=
  mkToleo flag (collection self) (path_override self) (limit self)
    (cfg_path self) (cfg self) (line self).

(** [v.get(k)], with [None] when [v] is no mapping. *)
Definition field (v : value) (k : string) : value :=
  match Py.get v k with
  | Ok x => x
  | Raise _ => VNone
  end.

(** The request [scrape] makes for a url and a header flag. *)
Definition scrape_request (url use_headers : value) : request :=
  if Py.truthy use_headers then ReqHead url else ReqGet url.

(** The request the upstream resolver makes for a package. *)
Definition upstream_request (self : Toleo) (pkg_name : string) : request :=
  let upstream := field (Py.get_or_none (cfg self) pkg_name) "upstream" in
  scrape_request (field upstream "url") (field upstream "use_headers").

(** The query the repo resolver makes for a package. *)
Definition aur_query (pkg_name : string) : request :=
  ReqGetParams aur_rpc_url [("type", "info"); ("arg", pkg_name)].

Definition is_page_request (r : request) : bool :=
  match r with
  | ReqGet _ | ReqHead _ => true
  | ReqGetParams _ _ => false
  end.

Definition is_aur_query (r : request) : bool :=
  match r with
  | ReqGetParams url _ => url =? aur_rpc_url
  | _ => false
  end.

Definition is_string (v : value) : bool :=
  match v with
  | VStr _ => true
  | _ => false
  end.

(** The four lines [upstream_version] echoes under [--debug]. *)
Definition debug_lines (W : World) (upstream : value) (matches : list value)
  : list string :=
  [ "url:" ++ tab ++ tab ++ format W (field upstream "url");
    "parser:" ++ tab ++ tab ++ format W (field upstream "parser");
    "use_headers:" ++ tab ++ format W (field upstream "use_headers");
    "matches:" ++ tab ++ format W (VList matches) ].

(** A computation that makes only requests of one kind. *)
Definition requests_only {A : Type} (P : request -> bool) (m : M A) : Prop :=
  forall st, exists added,
    net (snd (m st)) = (net st ++ added)%list /\ forallb P added = true.

(** A second world: a pattern with two groups, and replies of the AUR that
    lack what the repo resolver reads. *)
Module Lab.

Definition app_dir : string := "/srv/toleo".

Definition pair_cfg : dict :=
  [("pair", Examples.package "http://example.test/pair" "(\d+)\.(\d+)")].

Definition head_cfg : dict :=
  [("etag", VDict [("upstream",
                    VDict [("url", VStr "http://example.test/etag");
                           ("pattern", VStr "release-(\d+\.\d+)");
                           ("use_headers", VBool true)]);
                   ("repo", Examples.repo_record)])].

Definition mixed_cfg : dict :=
  [("alpha", Examples.package "http://example.test/alpha" "alpha-(\d+\.\d+)");
   ("broken", VDict [("repo", Examples.repo_record)]);
   ("omega", Examples.package "http://example.test/omega" "omega-(\d+\.\d+)")].

Definition files : list (string * dict) :=
  [ (app_dir ++ "/pair.yaml", pair_cfg);
    (app_dir ++ "/head.yaml", head_cfg);
    (app_dir ++ "/mixed.yaml", mixed_cfg) ].

Definition pages : list (string * string) :=
  [ ("http://example.test/pair", "pair 3.4");
    ("http://example.test/alpha", "alpha-1.1.tar.gz alpha-1.10.tar.gz");
    ("http://example.test/omega", "omega-2.2.tar.gz") ].

Definition headers : list (string * list (string * string)) :=
  [ ("http://example.test/etag", [("Location", "/files/release-7.2.zip")]) ].

Definition aur : list (string * string) :=
  [ ("alpha", "1.10-1"); ("omega", "2.2-1") ].

Definition world : World := Tables.world app_dir files pages headers aur.

Definition app (collection : string) (cfg : dict) : Toleo :=
  mkToleo false collection None None
    (app_dir ++ "/" ++ collection ++ ".yaml") cfg Examples.divider.

(** The same world, with an AUR whose result records carry no [Version]. *)
Definition versionless : World :=
  mkWorld (get_app_dir world) (Path world) (path_div world) (with_suffix world)
    (is_file world) (yaml_load world)
    (requests_get_text world) (requests_head_headers world)
    (fun _ _ => Ok (VDict [("resultcount", VInt 1);
                           ("results", VDict [("Name", VStr "alpha")])]))
    (json_dumps world) (re_findall world) (py_str world).

(** The same world, with configuration files that exist and cannot be
    parsed. *)
Definition unreadable : World :=
  mkWorld (get_app_dir world) (Path world) (path_div world) (with_suffix world)
    (fun _ => true) (fun _ => Raise (LibraryError "yaml.YAMLError"))
    (requests_get_text world) (requests_head_headers world)
    (requests_get_json world)
    (json_dumps world) (re_findall world) (py_str world).

End Lab.

(** * Properties *)

(** ** The order on parsed versions *)

Section VersionOrder.

Lemma string_compare_opp (x y : string) :
  String.compare y x = CompOpp (String.compare x y).
Proof. apply String.compare_antisym. Qed.

Lemma string_compare_eq (x y : string) :
  String.compare x y = Eq <-> x = y.
Proof. apply String_as_OT.cmp_eq. Qed.

Lemma string_compare_lt_trans (x y z : string) :
  String.compare x y = Lt -> String.compare y z = Lt -> String.compare x z = Lt.
Proof.
  intros Hxy Hyz.
  apply String_as_OT.cmp_lt.
  apply String_as_OT.lt_trans with y; apply String_as_OT.cmp_lt; assumption.
Qed.

Lemma string_compare_trans (x y z : string) (c : comparison) :
  String.compare x y = c -> String.compare y z = c -> String.compare x z = c.
Proof.
  destruct c; intros Hxy Hyz.
  - apply string_compare_eq in Hxy, Hyz. subst.
    apply string_compare_eq. reflexivity.
  - eapply string_compare_lt_trans; eassumption.
  - rewrite string_compare_opp in Hxy, Hyz |- *.
    apply CompOpp_iff in Hxy, Hyz. apply CompOpp_iff. simpl in *.
    eapply string_compare_lt_trans; eassumption.
Qed.

Lemma tuple_compare_opp (xs ys : list string) :
  tuple_compare ys xs = CompOpp (tuple_compare xs ys).
Proof.
  unfold tuple_compare.
  apply list_compare_antisym.
  - apply string_compare_eq.
  - apply string_compare_opp.
Qed.

Lemma tuple_compare_eq (xs ys : list string) :
  tuple_compare xs ys = Eq <-> xs = ys.
Proof. apply list_compare_refl, string_compare_eq. Qed.

Lemma tuple_compare_trans (xs ys zs : list string) (c : comparison) :
  tuple_compare xs ys = c -> tuple_compare ys zs = c -> tuple_compare xs zs = c.
Proof.
  apply list_compare_trans.
  - apply string_compare_eq.
  - apply string_compare_trans.
  - apply string_compare_opp.
Qed.

End VersionOrder.

(** What [ver_compare] answers on two strings, from the order of their
    parsed versions. *)
Lemma ver_compare_strings (a b : string) :
  ver_compare (VStr a) (VStr b) =
  Ok (Some match tuple_compare (parse_version a) (parse_version b) with
           | Eq => "eq" | Lt => "lt" | Gt => "gt"
           end).
Proof.
  unfold ver_compare; simpl.
  destruct (tuple_compare (parse_version a) (parse_version b)); reflexivity.
Qed.

(** C5: on any two version strings the comparator answers [lt] one way
    exactly when it answers [gt] the other way, answers [eq] one way exactly
    when it does the other way, and answers [eq] on a string and itself. *)
Theorem ver_compare_antisymmetric_reflexive (a b : string) :
  (ver_compare (VStr a) (VStr b) = Ok (Some "lt") <->
   ver_compare (VStr b) (VStr a) = Ok (Some "gt")) /\
  (ver_compare (VStr a) (VStr b) = Ok (Some "eq") <->
   ver_compare (VStr b) (VStr a) = Ok (Some "eq")) /\
  ver_compare (VStr a) (VStr a) = Ok (Some "eq").
Proof.
  rewrite !ver_compare_strings.
  rewrite (tuple_compare_opp (parse_version a) (parse_version b)).
  assert (Hrefl : tuple_compare (parse_version a) (parse_version a) = Eq)
    by (apply tuple_compare_eq; reflexivity).
  rewrite Hrefl.
  destruct (tuple_compare (parse_version a) (parse_version b)); simpl;
    repeat split; intros; try reflexivity; discriminate.
Qed.

(** ** Computations only append to the state *)

Section Frames.

Lemma plus_init_l (d : state) : plus init_state d = d.
Proof. destruct d; reflexivity. Qed.

Lemma plus_init_r (st : state) : plus st init_state = st.
Proof. destruct st; unfold plus; simpl. rewrite !app_nil_r. reflexivity. Qed.

Lemma plus_assoc (a b c : state) : plus (plus a b) c = plus a (plus b c).
Proof. unfold plus; simpl. rewrite !app_assoc. reflexivity. Qed.

Lemma framed_ret {A} (a : A) : framed (ret a).
Proof. intros st. unfold ret; simpl. rewrite plus_init_r. reflexivity. Qed.

Lemma framed_lift {A} (r : result A) : framed (lift r).
Proof. intros st. unfold lift; simpl. rewrite plus_init_r. reflexivity. Qed.

Lemma framed_echo (msg : string) : framed (echo msg).
Proof.
  intros st. unfold echo, plus; simpl. rewrite app_nil_r. reflexivity.
Qed.

Lemma framed_sent (r : request) : framed (sent r).
Proof.
  intros st. unfold sent, plus; simpl. rewrite app_nil_r. reflexivity.
Qed.

Lemma framed_bind {A B} (m : M A) (k : A -> M B) :
  framed m -> (forall a, framed (k a)) -> framed (bind m k).
Proof.
  intros Hm Hk st. unfold bind.
  rewrite (Hm st).
  destruct (m init_state) as [[a | e] d]; simpl.
  - rewrite (Hk a (plus st d)), (Hk a d), plus_assoc. reflexivity.
  - reflexivity.
Qed.

Lemma framed_when (c : bool) (body : M unit) : framed body -> framed (when c body).
Proof. destruct c; simpl; [trivial | intros _; apply framed_ret]. Qed.

Lemma framed_for_each {A} (l : list A) (body : A -> M unit) :
  (forall x, framed (body x)) -> framed (for_each l body).
Proof.
  intros Hbody. induction l as [| x rest IH]; simpl.
  - apply framed_ret.
  - apply framed_bind; [apply Hbody | intros _; exact IH].
Qed.

End Frames.

Create HintDb frames.

#[local] Hint Resolve framed_ret framed_lift framed_echo framed_sent
  framed_when framed_for_each : frames.

Ltac frame :=
  repeat first
    [ apply framed_bind; [| intros ?]
    | apply framed_for_each; intros ?
    | apply framed_when
    | solve [auto with frames] ].

Section ProgramFrames.

Variable W : World.

Lemma framed_scrape (url use_headers : value) : framed (scrape W url use_headers).
Proof. unfold scrape. destruct (Py.truthy use_headers); frame. Qed.

Lemma framed_aur_api (method data : string) : framed (aur_api W method data).
Proof. unfold aur_api. frame. Qed.

Lemma framed_upstream_version (self : Toleo) (pkg : string) :
  framed (upstream_version W self pkg).
Proof. unfold upstream_version. frame; try apply framed_scrape. Qed.

Lemma framed_repo_version (self : Toleo) (pkg : string) :
  framed (repo_version W self pkg).
Proof. unfold repo_version. frame; try apply framed_aur_api. Qed.

End ProgramFrames.

(** ** Packages without an upstream or a repo record *)

Lemma get_without_record (key : string) (defn : value) :
  has_record key defn = false ->
  Py.get defn key = Raise AttributeError \/
  exists v, Py.get defn key = Ok v /\ forall k, Py.get v k = Raise AttributeError.
Proof.
  unfold has_record, Py.get, Py.get_or_none.
  destruct defn as [| | | | |d]; auto.
  destruct (Py.dict_get d key) as [[| | | | |r] |]; intros H;
    try discriminate H; right; eexists; split; reflexivity || (intros; reflexivity).
Qed.

Lemma get_with_record (key : string) (defn : value) :
  has_record key defn = true ->
  exists r, Py.get defn key = Ok (VDict r).
Proof.
  unfold has_record, Py.get, Py.get_or_none.
  destruct defn as [| | | | |d]; try discriminate.
  destruct (Py.dict_get d key) as [[| | | | |r] |]; try discriminate.
  intros _. exists r. reflexivity.
Qed.

(** C3, as the code has it: resolving the upstream version of a package
    whose definition holds no upstream record fails with an attribute
    fault, which no caller handles; nothing is echoed and no call goes to the
    network. *)
Theorem upstream_version_without_record (W : World) (self : Toleo)
    (pkg : string) (st : state)
    (Hno : has_record "upstream" (Py.get_or_none (cfg self) pkg) = false) :
  upstream_version W self pkg st = (Raise AttributeError, st) /\
  (forall v, fst (upstream_version W self pkg st) <> Ok v).
Proof.
  assert (Heq : upstream_version W self pkg st = (Raise AttributeError, st)).
  { unfold upstream_version, bind, lift.
    destruct (get_without_record _ _ Hno) as [Hget | [v [Hget Hv]]];
      rewrite Hget; [reflexivity |].
    rewrite (Hv "url"). reflexivity. }
  split; [exact Heq |].
  intros v. rewrite Heq. simpl. discriminate.
Qed.

(** ** The repo resolver *)

(** C8, as the code has it: for a package whose definition holds a repo
    record, the resolver sends exactly one query, [type=info] and
    [arg=<package name>], to the fixed endpoint, and returns the [Version]
    of the [results] object of the reply; a failure of the query or of
    either lookup is the resolver's outcome, and the query is sent again at
    every call. *)
Theorem repo_version_one_query (W : World) (self : Toleo) (pkg : string)
    (st : state)
    (Hrepo : has_record "repo" (Py.get_or_none (cfg self) pkg) = true) :
  let query := [("type", "info"); ("arg", pkg)] in
  repo_version W self pkg st =
    (data <-- requests_get_json W "https://aur.archlinux.org/rpc.php" query ;;
     results <-- Py.get data "results" ;;
     Py.get results "Version",
     mkState (stdout st)
       (net st ++ [ReqGetParams "https://aur.archlinux.org/rpc.php" query])).
Proof.
  intros query.
  destruct (get_with_record _ _ Hrepo) as [r Hget].
  unfold repo_version, aur_api, bind, lift, sent, ret, aur_rpc_url.
  rewrite Hget. simpl. fold query.
  destruct (requests_get_json W _ query) as [data | e]; simpl; [| reflexivity].
  destruct (Py.get data "results") as [results | e]; simpl; [| reflexivity].
  destruct (Py.get results "Version"); reflexivity.
Qed.

(** ** What the upstream resolver returns *)

Lemma version_loop_result (W : World) (matches : list value) :
  forall v0 v, version_loop W matches v0 = Ok v ->
    v = v0 \/ exists m, In (VStr m) matches /\ v = m ++ "-0".
Proof.
  induction matches as [| mtch rest IH]; simpl; intros v0 v H.
  - left. congruence.
  - destruct mtch as [| | |m| |]; try discriminate H.
    rewrite ver_compare_strings in H. simpl in H.
    match type of H with
    | (if ?c then _ else _) = _ => destruct c
    end.
    + apply IH in H. destruct H as [-> | [m' [Hin ->]]].
      * right. exists m. split; [left; reflexivity | reflexivity].
      * right. exists m'. split; [right; exact Hin | reflexivity].
    + apply IH in H. destruct H as [-> | [m' [Hin ->]]].
      * left. reflexivity.
      * right. exists m'. split; [right; exact Hin | reflexivity].
Qed.

Lemma upstream_version_inv (W : World) (self : Toleo) (pkg : string)
    (st st' : state) (v : string) :
  upstream_version W self pkg st = (Ok v, st') ->
  exists upstream url pattern use_headers text st1 matches,
    Py.get (Py.get_or_none (cfg self) pkg) "upstream" = Ok upstream /\
    Py.get upstream "url" = Ok url /\
    Py.get upstream "pattern" = Ok pattern /\
    Py.get upstream "use_headers" = Ok use_headers /\
    scrape W url use_headers st = (Ok text, st1) /\
    re_findall W pattern text = Ok matches /\
    version_loop W matches "" = Ok v.
Proof.
  unfold upstream_version, bind, lift.
  destruct (Py.get (Py.get_or_none (cfg self) pkg) "upstream") as [upstream |] eqn:Hup;
    [| discriminate].
  destruct (Py.get upstream "url") as [url |] eqn:Hurl; [| discriminate].
  destruct (Py.get upstream "parser") as [parser |] eqn:Hparser; [| discriminate].
  destruct (Py.get upstream "pattern") as [pattern |] eqn:Hpat; [| discriminate].
  destruct (Py.get upstream "use_headers") as [use_headers |] eqn:Huh; [| discriminate].
  destruct (scrape W url use_headers st) as [[text |] st1] eqn:Hscrape; [| discriminate].
  destruct (re_findall W pattern text) as [matches |] eqn:Hfind; [| discriminate].
  destruct (when (debug self) _ st1) as [[[] |] st2]; [| discriminate].
  destruct (version_loop W matches "") as [v' |] eqn:Hloop; [| discriminate].
  intros H. injection H as -> _.
  exists upstream, url, pattern, use_headers, text, st1, matches.
  repeat split; assumption || reflexivity.
Qed.

(** C9: what the upstream resolver returns is the empty string, or one of
    the matches of the package's pattern in the content fetched from the
    package's url, with [-0] appended; so a result that is not empty ends in
    [-0]. *)
Theorem upstream_version_is_suffixed_match (W : World) (self : Toleo)
    (pkg : string) (st st' : state) (v : string)
    (Hret : upstream_version W self pkg st = (Ok v, st')) :
  v = "" \/
  exists upstream url pattern use_headers text matches m,
    Py.get (Py.get_or_none (cfg self) pkg) "upstream" = Ok upstream /\
    Py.get upstream "url" = Ok url /\
    Py.get upstream "pattern" = Ok pattern /\
    Py.get upstream "use_headers" = Ok use_headers /\
    fst (scrape W url use_headers st) = Ok text /\
    re_findall W pattern text = Ok matches /\
    In (VStr m) matches /\
    v = m ++ "-0".
Proof.
  destruct (upstream_version_inv _ _ _ _ _ _ Hret)
    as (upstream & url & pattern & use_headers & text & st1 & matches &
        Hup & Hurl & Hpat & Huh & Hscrape & Hfind & Hloop).
  destruct (version_loop_result _ _ _ _ Hloop) as [-> | [m [Hin ->]]].
  - left. reflexivity.
  - right. exists upstream, url, pattern, use_headers, text, matches, m.
    rewrite Hscrape. repeat split; assumption || reflexivity.
Qed.

Import Examples.

Lemma upstream_version_without_record_witness :
  has_record "upstream" (Py.get_or_none (cfg (app "bare" bare_cfg)) "widget") = false /\
  upstream_version demo (app "bare" bare_cfg) "widget" init_state
    = (Raise AttributeError, init_state) /\
  (forall v, fst (upstream_version demo (app "bare" bare_cfg) "widget" init_state) <> Ok v).
Proof.
  split; [reflexivity |].
  apply (upstream_version_without_record demo (app "bare" bare_cfg) "widget" init_state).
  reflexivity.
Defined.

(** The claim C3 says the resolver reports an outcome instead of failing:
    on the collection whose package has no upstream record, the resolver
    and with it the whole [upstream] report end in an attribute fault. *)
Lemma upstream_version_without_record_fails :
  Toleo_init demo false "bare" None None init_state
    = (Ok (app "bare" bare_cfg), init_state) /\
  ~ (exists v, fst (upstream_version demo (app "bare" bare_cfg) "widget" init_state) = Ok v) /\
  cli demo "upstream" false "bare" None None init_state
    = (Raise AttributeError, mkState [divider; "package:" ++ tab ++ "widget"] []).
Proof.
  split; [vm_compute; reflexivity |].
  split; [| vm_compute; reflexivity].
  intros [v Hv]. vm_compute in Hv. discriminate Hv.
Qed.

Lemma repo_version_one_query_witness :
  has_record "repo" (Py.get_or_none (cfg (app "default" default_cfg)) "widget") = true /\
  repo_version demo (app "default" default_cfg) "widget" init_state =
    (Ok (VStr "1.4.0-1"),
     mkState [] [ReqGetParams "https://aur.archlinux.org/rpc.php"
                   [("type", "info"); ("arg", "widget")]]).
Proof.
  split; [reflexivity |].
  rewrite (repo_version_one_query demo (app "default" default_cfg) "widget" init_state);
    reflexivity.
Defined.

(** The claim C8 says the resolver sends its query for every package name:
    for the package without a repo record it fails before any query is
    sent. *)
Lemma repo_version_without_record_sends_nothing :
  Toleo_init demo false "norepo" None None init_state
    = (Ok (app "norepo" norepo_cfg), init_state) /\
  repo_version demo (app "norepo" norepo_cfg) "widget" init_state
    = (Raise AttributeError, init_state) /\
  net (snd (repo_version demo (app "norepo" norepo_cfg) "widget" init_state))
    <> [ReqGetParams "https://aur.archlinux.org/rpc.php"
          [("type", "info"); ("arg", "widget")]].
Proof.
  split; [vm_compute; reflexivity |].
  split; [vm_compute; reflexivity |].
  vm_compute. discriminate.
Qed.

Lemma upstream_version_is_suffixed_match_witness :
  upstream_version demo (app "series" series_cfg) "tool" init_state
    = (Ok "1.3.0-rc1-0", mkState [] [ReqGet (VStr "http://example.test/tool")]) /\
  ("1.3.0-rc1-0" = "" \/
   exists upstream url pattern use_headers text matches m,
     Py.get (Py.get_or_none (cfg (app "series" series_cfg)) "tool") "upstream" = Ok upstream /\
     Py.get upstream "url" = Ok url /\
     Py.get upstream "pattern" = Ok pattern /\
     Py.get upstream "use_headers" = Ok use_headers /\
     fst (scrape demo url use_headers init_state) = Ok text /\
     re_findall demo pattern text = Ok matches /\
     In (VStr m) matches /\
     "1.3.0-rc1-0" = m ++ "-0").
Proof.
  split; [vm_compute; reflexivity |].
  apply (upstream_version_is_suffixed_match demo (app "series" series_cfg) "tool"
           init_state (mkState [] [ReqGet (VStr "http://example.test/tool")])).
  vm_compute. reflexivity.
Defined.

(** ** Loading the configuration *)

Lemma prefix_app (p s : string) : prefix p (p ++ s) = true.
Proof.
  induction p as [| c p IH]; simpl; [destruct s; reflexivity |].
  destruct (ascii_dec c c) as [_ | Hne]; [exact IH | congruence].
Qed.

Lemma contains_unfold (p s : string) :
  contains p s =
  prefix p s || match s with "" => false | String _ rest => contains p rest end.
Proof. destruct s; reflexivity. Qed.

Lemma contains_prefix (p s : string) : prefix p s = true -> contains p s = true.
Proof. intros H. rewrite contains_unfold, H. reflexivity. Qed.

Lemma contains_app_l (p a s : string) :
  contains p s = true -> contains p (a ++ s) = true.
Proof.
  intros H. induction a as [| c a IH]; [exact H |].
  change (String c a ++ s) with (String c (a ++ s)).
  rewrite contains_unfold, IH. apply orb_true_r.
Qed.

Lemma str_app_assoc (a b c : string) : (a ++ b) ++ c = a ++ (b ++ c).
Proof. induction a as [| x a IH]; simpl; [reflexivity | rewrite IH; reflexivity]. Qed.

Lemma contains_style_path (p : string) :
  contains p (click_style_red_bold ("cannot read " ++ p)) = true.
Proof.
  unfold click_style_red_bold.
  apply contains_app_l, contains_app_l.
  rewrite str_app_assoc.
  apply contains_app_l, contains_prefix, prefix_app.
Qed.

(** C6: when the configuration file of the collection does not exist, the
    program stops at once, whatever the action and the options: its outcome
    is [sys.exit] with a message that contains the path of the file, nothing
    has been echoed and no call has gone to the network. *)
Theorem missing_config_exits (W : World) (action : string) (debug : bool)
    (collection : string) (path_override limit : option string) (p : string)
    (Hpath : find_config W path_override collection = Ok p)
    (Hmissing : is_file W p = false) :
  cli W action debug collection path_override limit init_state =
    (Raise (SystemExit (click_style_red_bold ("cannot read " ++ p))), init_state) /\
  contains p (click_style_red_bold ("cannot read " ++ p)) = true.
Proof.
  split; [| apply contains_style_path].
  unfold cli, Toleo_init, bind, lift.
  rewrite Hpath. unfold read_config. rewrite Hmissing. reflexivity.
Qed.

Lemma missing_config_exits_witness :
  find_config demo None "ghost" = Ok (app_dir ++ "/ghost.yaml") /\
  is_file demo (app_dir ++ "/ghost.yaml") = false /\
  cli demo "compare" false "ghost" None None init_state =
    (Raise (SystemExit (click_style_red_bold
                          ("cannot read " ++ app_dir ++ "/ghost.yaml"))),
     init_state) /\
  contains (app_dir ++ "/ghost.yaml")
    (click_style_red_bold ("cannot read " ++ app_dir ++ "/ghost.yaml")) = true.
Proof.
  split; [reflexivity |]. split; [reflexivity |].
  apply (missing_config_exits demo "compare" false "ghost" None None
           (app_dir ++ "/ghost.yaml")); reflexivity.
Defined.

Lemma eqb_false_of_neq (a b : string) : a <> b -> (a =? b) = false.
Proof. intros H. apply String.eqb_neq. exact H. Qed.

(** C10: an action that is none of [upstream], [repo] and [compare] is not
    refused.  The configuration is loaded as for any action, so a missing
    file still ends the program, and once it is loaded the program ends
    successfully: nothing has been echoed and no call has gone to the
    network. *)
Theorem unknown_action_is_silent (W : World) (action : string) (debug : bool)
    (collection : string) (path_override limit : option string)
    (Hu : action <> "upstream") (Hr : action <> "repo") (Hc : action <> "compare") :
  cli W action debug collection path_override limit init_state =
    (match (cfg_path <-- find_config W path_override collection ;;
            read_config W cfg_path limit) with
     | Ok _ => Ok tt
     | Raise e => Raise e
     end, init_state) /\
  (forall p, find_config W path_override collection = Ok p ->
             is_file W p = false ->
             fst (cli W action debug collection path_override limit init_state)
               = Raise (SystemExit (click_style_red_bold ("cannot read " ++ p)))) /\
  (forall p cfg, find_config W path_override collection = Ok p ->
                 read_config W p limit = Ok cfg ->
                 cli W action debug collection path_override limit init_state
                   = (Ok tt, init_state)).
Proof.
  assert (Heq : cli W action debug collection path_override limit init_state =
    (match (cfg_path <-- find_config W path_override collection ;;
            read_config W cfg_path limit) with
     | Ok _ => Ok tt
     | Raise e => Raise e
     end, init_state)).
  { unfold cli, Toleo_init, bind, lift, ret, rbind.
    destruct (find_config W path_override collection) as [p |]; [| reflexivity].
    destruct (read_config W p limit) as [cfg |]; [| reflexivity].
    rewrite (eqb_false_of_neq _ _ Hu), (eqb_false_of_neq _ _ Hr),
      (eqb_false_of_neq _ _ Hc).
    reflexivity. }
  split; [exact Heq |]. split.
  - intros p Hp Hfile. rewrite Heq. simpl. rewrite Hp. simpl.
    unfold read_config. rewrite Hfile. reflexivity.
  - intros p cfg Hp Hcfg. rewrite Heq. rewrite Hp. simpl. rewrite Hcfg. reflexivity.
Qed.

Lemma unknown_action_is_silent_witness :
  "status" <> "upstream" /\ "status" <> "repo" /\ "status" <> "compare" /\
  cli demo "status" false "default" None None init_state = (Ok tt, init_state) /\
  fst (cli demo "status" false "ghost" None None init_state)
    = Raise (SystemExit (click_style_red_bold
                           ("cannot read " ++ app_dir ++ "/ghost.yaml"))).
Proof.
  split; [discriminate |]. split; [discriminate |]. split; [discriminate |].
  split.
  - apply (unknown_action_is_silent demo "status" false "default" None None)
      with (p := app_dir ++ "/default.yaml") (cfg := default_cfg);
      discriminate || reflexivity.
  - apply (unknown_action_is_silent demo "status" false "ghost" None None);
      discriminate || reflexivity.
Defined.

(** ** The name filter *)

Section Limit.

Variable l : string.

Definition keeps (kv : string * value) : bool := contains l (fst kv).

Lemma dict_get_skip (pre rest : dict) (k : string) :
  ~ In k (Py.keys pre) -> Py.dict_get (pre ++ rest)%list k = Py.dict_get rest k.
Proof.
  induction pre as [| [k' v'] pre IH]; simpl; intros Hnot; [reflexivity |].
  destruct (String.eqb_spec k' k) as [-> | _].
  - exfalso. apply Hnot. left. reflexivity.
  - apply IH. intros Hin. apply Hnot. right. exact Hin.
Qed.

Lemma dict_set_new (d : dict) (k : string) (v : value) :
  ~ In k (Py.keys d) -> Py.dict_set d k v = (d ++ [(k, v)])%list.
Proof.
  induction d as [| [k' v'] d IH]; simpl; intros Hnot; [reflexivity |].
  destruct (String.eqb_spec k' k) as [-> | _].
  - exfalso. apply Hnot. left. reflexivity.
  - rewrite IH; [reflexivity |]. intros Hin. apply Hnot. right. exact Hin.
Qed.

Lemma keys_filter_subset (d : dict) (k : string) :
  In k (Py.keys (filter keeps d)) -> In k (Py.keys d).
Proof.
  unfold Py.keys. rewrite !in_map_iff.
  intros [kv [Hk Hin]]. apply filter_In in Hin. exists kv. tauto.
Qed.

Lemma limit_loop_filter (post pre : dict) :
  NoDup (Py.keys (pre ++ post)%list) ->
  limit_loop l (pre ++ post)%list (Py.keys post) (filter keeps pre)
    = Ok (filter keeps (pre ++ post)%list).
Proof.
  revert pre. induction post as [| [k v] post IH]; intros pre Hnd.
  - simpl. rewrite app_nil_r. reflexivity.
  - assert (Hfresh : ~ In k (Py.keys pre)).
    { unfold Py.keys in Hnd |- *. rewrite map_app in Hnd. simpl in Hnd.
      apply NoDup_remove_2 in Hnd. intros Hin. apply Hnd.
      apply in_or_app. left. exact Hin. }
    assert (Hstep : (pre ++ (k, v) :: post = (pre ++ [(k, v)]) ++ post)%list)
      by (rewrite <- app_assoc; reflexivity).
    simpl. unfold Py.getitem.
    rewrite (dict_get_skip pre ((k, v) :: post) k Hfresh). simpl.
    rewrite String.eqb_refl. simpl.
    destruct (contains l k) eqn:Hk.
    + rewrite dict_set_new
        by (intros Hin; apply Hfresh, keys_filter_subset, Hin).
      specialize (IH (pre ++ [(k, v)])%list).
      rewrite filter_app in IH. simpl in IH. unfold keeps at 2 in IH.
      simpl in IH. rewrite Hk in IH.
      rewrite Hstep. apply IH. rewrite <- Hstep. exact Hnd.
    + specialize (IH (pre ++ [(k, v)])%list).
      rewrite filter_app in IH. simpl in IH. unfold keeps at 2 in IH.
      simpl in IH. rewrite Hk, app_nil_r in IH.
      rewrite Hstep. apply IH. rewrite <- Hstep. exact Hnd.
Qed.

End Limit.

Lemma for_each_nil {A} (body : A -> M unit) (st : state) :
  for_each [] body st = (Ok tt, st).
Proof. reflexivity. Qed.

(** C7: with a name filter the collection is narrowed when it is loaded, to
    the packages whose name contains the filter, in the order of the file;
    the reports read this narrowed collection.  When no package is left each
    report is its opening divider alone and ends successfully.  With the
    filter [foo] over [foobar], [foo-lib] and [baz] the collection holds
    [foobar] and [foo-lib], and only these are in the three reports. *)
Theorem limit_narrows_collection (W : World) (debug : bool)
    (collection : string) (path_override : option string) (l p : string)
    (full_cfg : dict)
    (Hpath : find_config W path_override collection = Ok p)
    (Hfile : is_file W p = true)
    (Hload : yaml_load W p = Ok full_cfg)
    (Hkeys : NoDup (Py.keys full_cfg)) :
  let narrowed := filter (keeps l) full_cfg in
  Toleo_init W debug collection path_override (Some l) init_state =
    (Ok (mkToleo debug collection path_override (Some l) p narrowed
           (PyStr.repeat "-" 50)), init_state) /\
  (narrowed = [] ->
   forall action, In action ["upstream"; "repo"; "compare"] ->
     cli W action debug collection path_override (Some l) init_state
       = (Ok tt, mkState [PyStr.repeat "-" 50] [])) /\
  Py.keys (filter (keeps "foo") foo_cfg) = ["foobar"; "foo-lib"] /\
  stdout (snd (cli demo "upstream" false "foo" None (Some "foo") init_state)) =
    [divider; "package:" ++ tab ++ "foobar"; "upstream:" ++ tab ++ "2.1"; divider;
     "package:" ++ tab ++ "foo-lib"; "upstream:" ++ tab ++ "0.9"; divider] /\
  stdout (snd (cli demo "repo" false "foo" None (Some "foo") init_state)) =
    [divider; "package:" ++ tab ++ "foobar"; "repo:" ++ tab ++ tab ++ "2.1-1"; divider;
     "package:" ++ tab ++ "foo-lib"; "repo:" ++ tab ++ tab ++ "0.9-3"; divider] /\
  stdout (snd (cli demo "compare" false "foo" None (Some "foo") init_state)) =
    [divider; "package:" ++ tab ++ "foobar"; "upstream:" ++ tab ++ "2.1";
     "repo:" ++ tab ++ tab ++ "2.1-1"; divider;
     "package:" ++ tab ++ "foo-lib"; "upstream:" ++ tab ++ "0.9";
     "repo:" ++ tab ++ tab ++ "0.9-3"; divider].
Proof.
  intros narrowed.
  assert (Hinit : Toleo_init W debug collection path_override (Some l) init_state =
    (Ok (mkToleo debug collection path_override (Some l) p narrowed
           (PyStr.repeat "-" 50)), init_state)).
  { unfold Toleo_init, bind, lift, ret. rewrite Hpath.
    unfold read_config. rewrite Hfile, Hload. simpl.
    pose proof (limit_loop_filter l full_cfg [] Hkeys) as Hloop.
    simpl in Hloop. rewrite Hloop. reflexivity. }
  split; [exact Hinit |]. split.
  - intros Hempty action Hin.
    unfold cli, bind. rewrite Hinit, Hempty.
    simpl in Hin. destruct Hin as [<- | [<- | [<- | []]]]; reflexivity.
  - repeat split; vm_compute; reflexivity.
Qed.

Lemma limit_narrows_collection_witness :
  find_config demo None "foo" = Ok (app_dir ++ "/foo.yaml") /\
  is_file demo (app_dir ++ "/foo.yaml") = true /\
  yaml_load demo (app_dir ++ "/foo.yaml") = Ok foo_cfg /\
  NoDup (Py.keys foo_cfg) /\
  Toleo_init demo false "foo" None (Some "zzz") init_state =
    (Ok (mkToleo false "foo" None (Some "zzz") (app_dir ++ "/foo.yaml") [] divider),
     init_state) /\
  cli demo "compare" false "foo" None (Some "zzz") init_state
    = (Ok tt, mkState [divider] []).
Proof.
  assert (Hnd : NoDup (Py.keys foo_cfg)).
  { repeat constructor; simpl; intros H;
      repeat (destruct H as [H | H]; [discriminate H |]); exact H. }
  split; [reflexivity |]. split; [reflexivity |]. split; [reflexivity |].
  split; [exact Hnd |].
  destruct (limit_narrows_collection demo false "foo" None "zzz"
              (app_dir ++ "/foo.yaml") foo_cfg
              eq_refl eq_refl eq_refl Hnd) as [Hinit [Hempty _]].
  split; [exact Hinit |].
  apply Hempty; [reflexivity | simpl; auto].
Defined.

(** ** What the reports display *)

Lemma last_char_cons (c : ascii) (s : string) :
  s <> "" -> last_char (String c s) = last_char s.
Proof. destruct s; [congruence | reflexivity]. Qed.

Lemma rstrip_kept (s chars : string) :
  (forall c, last_char s = Some c -> mem c chars = false) ->
  PyStr.rstrip s chars = s.
Proof.
  induction s as [| c rest IH]; intros Hlast; [reflexivity |].
  simpl. destruct rest as [| d rest'].
  - simpl. rewrite (Hlast c eq_refl). reflexivity.
  - rewrite IH by (intros x Hx; apply Hlast; exact Hx).
    reflexivity.
Qed.

Lemma rstrip_unsuffixed (s : string) :
  trimmed_end s = false -> PyStr.rstrip s "-0" = s.
Proof.
  unfold trimmed_end. intros H. apply rstrip_kept.
  intros c Hc. rewrite Hc in H. exact H.
Qed.

Lemma rstrip_release_suffix (m : string) :
  trimmed_end m = false -> PyStr.rstrip (m ++ "-0") "-0" = m.
Proof.
  unfold trimmed_end.
  induction m as [| c rest IH]; intros H; [reflexivity |].
  destruct rest as [| d rest'].
  - simpl in H |- *. rewrite H. reflexivity.
  - change (String c (String d rest') ++ "-0")
      with (String c (String d rest' ++ "-0")).
    change (PyStr.rstrip (String c (String d rest' ++ "-0")) "-0")
      with (let r := PyStr.rstrip (String d rest' ++ "-0") "-0" in
            if (r =? "") && mem c "-0" then "" else String c r).
    rewrite IH by exact H. reflexivity.
Qed.

Section Blocks.

Variable W : World.
Variable self : Toleo.
Variable pkg : string.

Let up : state := snd (upstream_version W self pkg init_state).
Let rp : state := snd (repo_version W self pkg init_state).

Lemma upstream_block_run (v : string) :
  fst (upstream_version W self pkg init_state) = Ok v ->
  upstream_block W self pkg init_state =
    (Ok tt,
     mkState (package_line pkg ::
              (stdout up ++
               [upstream_line (PyStr.rstrip v "-0"); line self])%list)
             (net up)).
Proof.
  intros Hv. unfold upstream_block, bind, echo. simpl.
  rewrite (framed_upstream_version W self pkg).
  subst up. destruct (upstream_version W self pkg init_state) as [r d].
  simpl in Hv. subst r. simpl.
  rewrite <- app_assoc. reflexivity.
Qed.

Lemma repo_block_run (s : string) :
  fst (repo_version W self pkg init_state) = Ok (VStr s) ->
  repo_block W self pkg init_state =
    (Ok tt,
     mkState (package_line pkg ::
              (stdout rp ++
               [repo_line (PyStr.rstrip s "-0"); line self])%list)
             (net rp)).
Proof.
  intros Hs. unfold repo_block, bind, echo, lift. simpl.
  rewrite (framed_repo_version W self pkg).
  subst rp. destruct (repo_version W self pkg init_state) as [r d].
  simpl in Hs. subst r. simpl.
  rewrite <- app_assoc. reflexivity.
Qed.

Lemma compare_block_run (v s : string) :
  fst (upstream_version W self pkg init_state) = Ok v ->
  fst (repo_version W self pkg init_state) = Ok (VStr s) ->
  compare_block W self pkg init_state =
    (Ok tt,
     mkState (package_line pkg ::
              (stdout up ++
               [upstream_line (PyStr.rstrip v "-0")] ++ stdout rp ++
               [repo_line (PyStr.rstrip s "-0"); line self])%list)
             (net up ++ net rp)%list).
Proof.
  intros Hv Hs. unfold compare_block, bind, echo, lift. simpl.
  rewrite (framed_upstream_version W self pkg).
  subst up. destruct (upstream_version W self pkg init_state) as [r d].
  simpl in Hv. subst r. simpl.
  rewrite (framed_repo_version W self pkg).
  subst rp. destruct (repo_version W self pkg init_state) as [r' d'].
  simpl in Hs. subst r'. simpl.
  rewrite <- !app_assoc. reflexivity.
Qed.

End Blocks.

(** C1, as the code has it: in every report mode the displayed version is
    the resolved version trimmed at its end.  An upstream version [m-0]
    whose match [m] ends in neither [0] nor [-] is displayed as [m], and a
    repo version that ends in neither [0] nor [-] is displayed unchanged,
    whatever the resolvers echoed before.  For the widget page and the repo
    version [1.4.0-1], [compare] prints the divider, the package line, an
    upstream line, the repo line of [1.4.0-1] and the divider. *)
Theorem display_trims_release (W : World) (self : Toleo) (pkg m s : string)
    (Hm : trimmed_end m = false) (Hs : trimmed_end s = false)
    (Hup : fst (upstream_version W self pkg init_state) = Ok (m ++ "-0"))
    (Hrepo : fst (repo_version W self pkg init_state) = Ok (VStr s)) :
  let up := snd (upstream_version W self pkg init_state) in
  let rp := snd (repo_version W self pkg init_state) in
  upstream_block W self pkg init_state =
    (Ok tt,
     mkState (package_line pkg :: (stdout up ++ [upstream_line m; line self])%list)
             (net up)) /\
  repo_block W self pkg init_state =
    (Ok tt,
     mkState (package_line pkg :: (stdout rp ++ [repo_line s; line self])%list)
             (net rp)) /\
  compare_block W self pkg init_state =
    (Ok tt,
     mkState (package_line pkg ::
              (stdout up ++ [upstream_line m] ++ stdout rp ++
               [repo_line s; line self])%list)
             (net up ++ net rp)%list) /\
  exists shown,
    cli demo "compare" false "default" None None init_state =
      (Ok tt,
       mkState [divider; package_line "widget"; upstream_line shown;
                repo_line "1.4.0-1"; divider]
               [ReqGet (VStr widget_url);
                ReqGetParams "https://aur.archlinux.org/rpc.php"
                  [("type", "info"); ("arg", "widget")]]).
Proof.
  intros up rp.
  pose proof (upstream_block_run W self pkg _ Hup) as Hu.
  pose proof (repo_block_run W self pkg _ Hrepo) as Hr.
  pose proof (compare_block_run W self pkg _ _ Hup Hrepo) as Hc.
  rewrite (rstrip_release_suffix m Hm) in Hu, Hc.
  rewrite (rstrip_unsuffixed s Hs) in Hr, Hc.
  split; [exact Hu |]. split; [exact Hr |]. split; [exact Hc |].
  eexists. vm_compute. reflexivity.
Qed.

Lemma display_trims_release_witness :
  trimmed_end "1.3.0-rc1" = false /\ trimmed_end "1.2.5-2" = false /\
  upstream_block demo (app "series" series_cfg) "tool" init_state =
    (Ok tt,
     mkState [package_line "tool"; upstream_line "1.3.0-rc1"; divider]
             [ReqGet (VStr "http://example.test/tool")]) /\
  compare_block demo (app "series" series_cfg) "tool" init_state =
    (Ok tt,
     mkState [package_line "tool"; upstream_line "1.3.0-rc1";
              repo_line "1.2.5-2"; divider]
             [ReqGet (VStr "http://example.test/tool");
              ReqGetParams "https://aur.archlinux.org/rpc.php"
                [("type", "info"); ("arg", "tool")]]).
Proof.
  split; [reflexivity |]. split; [reflexivity |].
  destruct (display_trims_release demo (app "series" series_cfg) "tool"
              "1.3.0-rc1" "1.2.5-2" eq_refl eq_refl eq_refl eq_refl)
    as [Hu [_ [Hc _]]].
  split; [exact Hu | exact Hc].
Defined.

(** The claim C1 says the display removes exactly a trailing [-0], and that
    the widget report shows [1.4.0] twice: the report shows [1.4.] for the
    upstream version [1.4.0-0] and [1.4.0-1] for the repo version. *)
Lemma widget_report_differs :
  fst (upstream_version demo (app "default" default_cfg) "widget" init_state)
    = Ok "1.4.0-0" /\
  fst (repo_version demo (app "default" default_cfg) "widget" init_state)
    = Ok (VStr "1.4.0-1") /\
  PyStr.rstrip "1.4.0-0" "-0" = "1.4." /\
  PyStr.rstrip "1.4.0-0" "-0" <> spec_strip_release_suffix "1.4.0-0" /\
  stdout (snd (cli demo "compare" false "default" None None init_state)) =
    [divider; package_line "widget"; upstream_line "1.4.";
     repo_line "1.4.0-1"; divider] /\
  stdout (snd (cli demo "compare" false "default" None None init_state))
    <> spec_widget_report.
Proof.
  repeat split; try (vm_compute; reflexivity); vm_compute; discriminate.
Qed.

(** ** A pattern without a match *)

Lemma upstream_version_run (W : World) (self : Toleo) (pkg : string)
    (u : dict) (text : string) (matches : list value) :
  Py.get (Py.get_or_none (cfg self) pkg) "upstream" = Ok (VDict u) ->
  fst (scrape W (Py.get_or_none u "url") (Py.get_or_none u "use_headers") init_state)
    = Ok text ->
  re_findall W (Py.get_or_none u "pattern") text = Ok matches ->
  fst (upstream_version W self pkg init_state) = version_loop W matches "".
Proof.
  intros Hup Hscrape Hfind.
  unfold upstream_version, bind, lift. rewrite Hup. simpl.
  destruct (scrape W _ _ init_state) as [r st1]. simpl in Hscrape. subst r.
  rewrite Hfind.
  destruct (debug self); reflexivity.
Qed.

(** C2, as the code has it: when the pattern of a package matches nothing in
    the fetched content, the upstream resolver returns the empty string; the
    trim of the display step leaves the empty string as it is and raises
    nothing, and the report shows an upstream line with no version, then the
    divider. *)
Theorem no_match_displays_empty_version (W : World) (self : Toleo)
    (pkg : string) (u : dict) (text : string)
    (Hup : Py.get (Py.get_or_none (cfg self) pkg) "upstream" = Ok (VDict u))
    (Hscrape : fst (scrape W (Py.get_or_none u "url")
                      (Py.get_or_none u "use_headers") init_state) = Ok text)
    (Hfind : re_findall W (Py.get_or_none u "pattern") text = Ok []) :
  let up := snd (upstream_version W self pkg init_state) in
  fst (upstream_version W self pkg init_state) = Ok "" /\
  PyStr.rstrip "" "-0" = "" /\
  upstream_block W self pkg init_state =
    (Ok tt,
     mkState (package_line pkg :: (stdout up ++ [upstream_line ""; line self])%list)
             (net up)).
Proof.
  intros up.
  assert (Hv : fst (upstream_version W self pkg init_state) = Ok "").
  { rewrite (upstream_version_run W self pkg u text [] Hup Hscrape Hfind).
    reflexivity. }
  split; [exact Hv |]. split; [reflexivity |].
  exact (upstream_block_run W self pkg "" Hv).
Qed.

Lemma no_match_displays_empty_version_witness :
  re_findall demo (VStr "release (\d+)") "download v1.4.0 now" = Ok [] /\
  fst (upstream_version demo (app "quiet" quiet_cfg) "widget" init_state) = Ok "" /\
  upstream_block demo (app "quiet" quiet_cfg) "widget" init_state =
    (Ok tt,
     mkState [package_line "widget"; upstream_line ""; divider]
             [ReqGet (VStr widget_url)]).
Proof.
  split; [reflexivity |].
  destruct (no_match_displays_empty_version demo (app "quiet" quiet_cfg) "widget"
              [("url", VStr widget_url); ("pattern", VStr "release (\d+)");
               ("parser", VStr "regex"); ("use_headers", VBool false)]
              "download v1.4.0 now" eq_refl eq_refl eq_refl)
    as [Hv [_ Hblock]].
  split; [exact Hv | exact Hblock].
Defined.

(** The claim C2 says the display step fails on the empty version: on the
    collection whose pattern matches nothing the [upstream] report ends
    successfully, with an upstream line that shows no version. *)
Lemma empty_version_is_displayed :
  Toleo_init demo false "quiet" None None init_state
    = (Ok (app "quiet" quiet_cfg), init_state) /\
  re_findall demo (VStr "release (\d+)") "download v1.4.0 now" = Ok [] /\
  upstream_version demo (app "quiet" quiet_cfg) "widget" init_state
    = (Ok "", mkState [] [ReqGet (VStr widget_url)]) /\
  cli demo "upstream" false "quiet" None None init_state =
    (Ok tt,
     mkState [divider; package_line "widget"; upstream_line ""; divider]
             [ReqGet (VStr widget_url)]) /\
  ~ (exists e, fst (cli demo "upstream" false "quiet" None None init_state) = Raise e).
Proof.
  repeat split; try (vm_compute; reflexivity).
  intros [e He]. vm_compute in He. discriminate He.
Qed.

(** ** The release suffix in the order of versions *)

Lemma lower_app (a b : string) : lower (a ++ b) = lower a ++ lower b.
Proof. induction a as [| c a IH]; simpl; [reflexivity | rewrite IH; reflexivity]. Qed.

Lemma split_go_release (s : string) :
  forall txt cur,
    split_go (s ++ "-0") txt cur = (split_go s txt cur ++ ["-"; ""; "0"; ""])%list.
Proof.
  induction s as [| c rest IH]; intros txt cur.
  - destruct cur as [[[] run] |]; reflexivity.
  - change (String c rest ++ "-0") with (String c (rest ++ "-0")).
    simpl. destruct (split_step c txt cur) as [[out txt'] cur'].
    rewrite IH, app_assoc. reflexivity.
Qed.

Lemma parts_of_app (pieces : list string) :
  exists body,
    parts_of pieces = (body ++ ["*final"])%list /\
    forall more, parts_of (pieces ++ more) = (body ++ parts_of more)%list.
Proof.
  induction pieces as [| piece rest [body [Hbody Hmore]]].
  - exists []. split; reflexivity.
  - simpl.
    destruct ((replace piece =? "") || (replace piece =? ".")).
    + exists body. split; [exact Hbody | exact Hmore].
    + destruct (first_is_digit (replace piece)).
      * exists (zfill 8 (replace piece) :: body). split.
        -- rewrite Hbody. reflexivity.
        -- intros more. rewrite Hmore. reflexivity.
      * exists (("*" ++ replace piece) :: body). split.
        -- rewrite Hbody. reflexivity.
        -- intros more. rewrite Hmore. reflexivity.
Qed.

(** A version and the same version with the release suffix parse to the
    same tuple up to its end, [*final] for the first and [*final-],
    [*final] for the second. *)
Lemma parse_version_release (s : string) :
  exists front,
    parse_version s = (front ++ ["*final"])%list /\
    parse_version (s ++ "-0") = (front ++ ["*final-"; "*final"])%list.
Proof.
  unfold parse_version, _parse_version_parts, component_split.
  rewrite lower_app. change (lower "-0") with "-0".
  rewrite split_go_release.
  destruct (parts_of_app (split_go (lower s) "" None)) as [body [Hbody Hmore]].
  rewrite Hmore, Hbody.
  change (parts_of ["-"; ""; "0"; ""]) with ["*final-"; "00000000"; "*final"].
  rewrite !fold_left_app.
  set (X := fold_left parse_step body []).
  exists (rev (pop_while "00000000" X)).
  split; [reflexivity |].
  cbn. rewrite <- app_assoc. reflexivity.
Qed.

Lemma release_suffix_greater (s : string) :
  tuple_compare (parse_version (s ++ "-0")) (parse_version s) = Gt.
Proof.
  destruct (parse_version_release s) as [front [-> ->]].
  unfold tuple_compare.
  rewrite list_compare_app by apply string_compare_eq.
  reflexivity.
Qed.

(** ** The scan of the matches *)

Lemma tuple_le_trans (xs ys zs : list string) :
  tuple_compare xs ys <> Gt -> tuple_compare ys zs <> Gt ->
  tuple_compare xs zs <> Gt.
Proof.
  intros Hxy Hyz.
  destruct (tuple_compare xs ys) eqn:A; [| | congruence];
    destruct (tuple_compare ys zs) eqn:B; try congruence.
  - apply tuple_compare_eq in A, B. subst.
    rewrite (proj2 (tuple_compare_eq zs zs) eq_refl). discriminate.
  - apply tuple_compare_eq in A. subst. rewrite B. discriminate.
  - apply tuple_compare_eq in B. subst. rewrite A. discriminate.
  - rewrite (tuple_compare_trans _ _ _ _ A B). discriminate.
Qed.

Lemma tuple_lt_le (xs ys : list string) :
  tuple_compare ys xs = Gt -> tuple_compare xs ys <> Gt.
Proof.
  intros H. rewrite tuple_compare_opp, H. discriminate.
Qed.

Lemma ver_compare_not_gt (a b : string) :
  ver_compare (VStr a) (VStr b) <> Ok (Some "gt") <->
  tuple_compare (parse_version a) (parse_version b) <> Gt.
Proof.
  rewrite ver_compare_strings.
  destruct (tuple_compare (parse_version a) (parse_version b)); split; intros H;
    congruence || discriminate.
Qed.

Lemma version_loop_step (W : World) (m : string) (rest : list value) (v0 : string) :
  version_loop W (VStr m :: rest) v0 =
  match tuple_compare (parse_version m) (parse_version v0) with
  | Gt => version_loop W rest (m ++ "-0")
  | _ => version_loop W rest v0
  end.
Proof.
  cbn [version_loop format]. rewrite ver_compare_strings.
  destruct (tuple_compare (parse_version m) (parse_version v0)); reflexivity.
Qed.

(** On matches that are strings the scan always returns: a value that is
    not below the one it started from, that is this value or a match with
    its suffix, and that no match exceeds. *)
Lemma version_loop_strings (W : World) (ms : list string) :
  forall v0, exists v,
    version_loop W (map VStr ms) v0 = Ok v /\
    tuple_compare (parse_version v0) (parse_version v) <> Gt /\
    (v = v0 \/ exists m, In m ms /\ v = m ++ "-0") /\
    (forall m, In m ms ->
       tuple_compare (parse_version m) (parse_version v) <> Gt).
Proof.
  induction ms as [| m rest IH]; intros v0.
  - exists v0. repeat split.
    + rewrite (proj2 (tuple_compare_eq _ _) eq_refl). discriminate.
    + left. reflexivity.
    + intros m [].
  - change (map VStr (m :: rest)) with (VStr m :: map VStr rest).
    rewrite version_loop_step.
    destruct (tuple_compare (parse_version m) (parse_version v0)) eqn:Hc.
    + destruct (IH v0) as [v [Hv [Hle [Hsel Hdom]]]].
      exists v. repeat split; trivial.
      * destruct Hsel as [-> | [m' [Hin ->]]]; [left; reflexivity |].
        right. exists m'. split; [right; exact Hin | reflexivity].
      * intros m' [<- | Hin]; [| apply Hdom, Hin].
        apply tuple_le_trans with (parse_version v0); [rewrite Hc; discriminate | exact Hle].
    + destruct (IH v0) as [v [Hv [Hle [Hsel Hdom]]]].
      exists v. repeat split; trivial.
      * destruct Hsel as [-> | [m' [Hin ->]]]; [left; reflexivity |].
        right. exists m'. split; [right; exact Hin | reflexivity].
      * intros m' [<- | Hin]; [| apply Hdom, Hin].
        apply tuple_le_trans with (parse_version v0); [rewrite Hc; discriminate | exact Hle].
    + destruct (IH (m ++ "-0")) as [v [Hv [Hle [Hsel Hdom]]]].
      assert (Hm : tuple_compare (parse_version m) (parse_version v) <> Gt).
      { apply tuple_le_trans with (parse_version (m ++ "-0")); [| exact Hle].
        apply tuple_lt_le, release_suffix_greater. }
      exists v. repeat split; trivial.
      * apply tuple_le_trans with (parse_version m); [| exact Hm].
        apply tuple_lt_le, Hc.
      * right. destruct Hsel as [-> | [m' [Hin ->]]].
        -- exists m. split; [left; reflexivity | reflexivity].
        -- exists m'. split; [right; exact Hin | reflexivity].
      * intros m' [<- | Hin]; [exact Hm | apply Hdom, Hin].
Qed.

(** C4, as the code has it: the upstream resolver scans the matches in
    order of appearance from an empty baseline and takes a match, with [-0]
    appended, when it compares greater than the value held so far, which
    carries the [-0] of the match taken before; a match that compares equal
    or less leaves the first-seen value.  What it returns is empty or a
    match with [-0] appended, and no match compares greater than it.  For
    the matches [1.2.0], [1.3.0-rc1], [1.2.5] it returns [1.3.0-rc1-0]. *)
Theorem upstream_version_scan (W : World) (self : Toleo) (pkg : string)
    (u : dict) (text : string) (ms : list string)
    (Hup : Py.get (Py.get_or_none (cfg self) pkg) "upstream" = Ok (VDict u))
    (Hscrape : fst (scrape W (Py.get_or_none u "url")
                      (Py.get_or_none u "use_headers") init_state) = Ok text)
    (Hfind : re_findall W (Py.get_or_none u "pattern") text = Ok (map VStr ms)) :
  (exists v,
     fst (upstream_version W self pkg init_state) = Ok v /\
     (v = "" \/ exists m, In m ms /\ v = m ++ "-0") /\
     (forall m, In m ms -> ver_compare (VStr m) (VStr v) <> Ok (Some "gt"))) /\
  (forall m rest held,
     ver_compare (VStr m) (VStr held) = Ok (Some "gt") ->
     version_loop W (VStr m :: rest) held = version_loop W rest (m ++ "-0")) /\
  (forall m rest held,
     ver_compare (VStr m) (VStr held) <> Ok (Some "gt") ->
     version_loop W (VStr m :: rest) held = version_loop W rest held) /\
  version_loop W [VStr "1.2.0"; VStr "1.3.0-rc1"; VStr "1.2.5"] "" = Ok "1.3.0-rc1-0".
Proof.
  split; [| split; [| split]].
  - destruct (version_loop_strings W ms "") as [v [Hv [_ [Hsel Hdom]]]].
    exists v. split; [| split].
    + rewrite (upstream_version_run W self pkg u text _ Hup Hscrape Hfind).
      exact Hv.
    + exact Hsel.
    + intros m Hin. apply ver_compare_not_gt, Hdom, Hin.
  - intros m rest held H. rewrite version_loop_step.
    rewrite ver_compare_strings in H.
    destruct (tuple_compare (parse_version m) (parse_version held));
      [discriminate H | discriminate H | reflexivity].
  - intros m rest held H. rewrite version_loop_step.
    apply ver_compare_not_gt in H.
    destruct (tuple_compare (parse_version m) (parse_version held));
      [reflexivity | reflexivity | congruence].
  - vm_compute. reflexivity.
Qed.

Lemma upstream_version_scan_witness :
  re_findall demo (VStr "\d+\.\d+\.\d+[-\w]*") "1.2.0 1.3.0-rc1 1.2.5"
    = Ok (map VStr ["1.2.0"; "1.3.0-rc1"; "1.2.5"]) /\
  upstream_version demo (app "series" series_cfg) "tool" init_state
    = (Ok "1.3.0-rc1-0", mkState [] [ReqGet (VStr "http://example.test/tool")]) /\
  exists v,
    fst (upstream_version demo (app "series" series_cfg) "tool" init_state) = Ok v /\
    (v = "" \/ exists m, In m ["1.2.0"; "1.3.0-rc1"; "1.2.5"] /\ v = m ++ "-0") /\
    (forall m, In m ["1.2.0"; "1.3.0-rc1"; "1.2.5"] ->
       ver_compare (VStr m) (VStr v) <> Ok (Some "gt")).
Proof.
  split; [reflexivity |]. split; [reflexivity |].
  apply (upstream_version_scan demo (app "series" series_cfg) "tool"
           [("url", VStr "http://example.test/tool");
            ("pattern", VStr "\d+\.\d+\.\d+[-\w]*");
            ("parser", VStr "regex"); ("use_headers", VBool false)]
           "1.2.0 1.3.0-rc1 1.2.5" ["1.2.0"; "1.3.0-rc1"; "1.2.5"]);
    reflexivity.
Defined.

(** The claim C4 says the resolver returns the greatest match with [-0]
    appended: of the matches [1.2] and [1.2-0] the second is the greater,
    and the resolver returns [1.2-0], the first with its suffix. *)
Lemma greatest_match_not_selected :
  Toleo_init demo false "dash" None None init_state
    = (Ok (app "dash" dash_cfg), init_state) /\
  re_findall demo (VStr "\d+\.\d+-?\d*") "lib 1.2 and lib 1.2-0"
    = Ok [VStr "1.2"; VStr "1.2-0"] /\
  ver_compare (VStr "1.2-0") (VStr "1.2") = Ok (Some "gt") /\
  upstream_version demo (app "dash" dash_cfg) "lib" init_state
    = (Ok "1.2-0", mkState [] [ReqGet (VStr "http://example.test/lib")]) /\
  ~ (exists m,
       In m ["1.2"; "1.2-0"] /\
       (forall m', In m' ["1.2"; "1.2-0"] ->
          ver_compare (VStr m') (VStr m) <> Ok (Some "gt")) /\
       fst (upstream_version demo (app "dash" dash_cfg) "lib" init_state)
         = Ok (m ++ "-0")).
Proof.
  split; [vm_compute; reflexivity |].
  split; [vm_compute; reflexivity |].
  split; [vm_compute; reflexivity |].
  split; [vm_compute; reflexivity |].
  intros [m [Hin [Hmax Hret]]].
  destruct Hin as [<- | [<- | []]].
  - apply (Hmax "1.2-0"); [right; left; reflexivity | vm_compute; reflexivity].
  - vm_compute in Hret. discriminate Hret.
Qed.

(** * Further properties of the code *)

(** ** Scraping *)


Lemma scrape_state (W : World) (url use_headers : value) (st : state) :
  scrape W url use_headers st =
    (fst (scrape W url use_headers init_state),
     mkState (stdout st) (net st ++ [scrape_request url use_headers])).
Proof.
  unfold scrape, scrape_request, bind, sent, lift, ret.
  destruct (Py.truthy use_headers); simpl.
  - destruct (requests_head_headers W url); reflexivity.
  - destruct (requests_get_text W url); reflexivity.
Qed.

(** ** The upstream resolver, step by step *)

Lemma field_of_record (u : dict) (k : string) :
  Py.get (VDict u) k = Ok (field (VDict u) k).
Proof. reflexivity. Qed.

(** What [upstream_version] does for a package with an upstream record. *)
Lemma upstream_version_eq (W : World) (self : Toleo) (pkg : string)
    (u : dict) (st : state) :
  Py.get (Py.get_or_none (cfg self) pkg) "upstream" = Ok (VDict u) ->
  let up := VDict u in
  let sent_st := mkState (stdout st) (net st ++ [upstream_request self pkg]) in
  upstream_version W self pkg st =
    match fst (scrape W (field up "url") (field up "use_headers") init_state) with
    | Raise e => (Raise e, sent_st)
    | Ok text =>
        match re_findall W (field up "pattern") text with
        | Raise e => (Raise e, sent_st)
        | Ok matches =>
            (version_loop W matches "",
             mkState (stdout st ++
                      (if debug self then debug_lines W up matches else []))
                     (net st ++ [upstream_request self pkg]))
        end
    end.
Proof.
  intros Hup up sent_st.
  assert (Hreq : upstream_request self pkg =
                 scrape_request (field up "url") (field up "use_headers")).
  { assert (Hf : field (Py.get_or_none (cfg self) pkg) "upstream" = up)
      by (unfold field; rewrite Hup; reflexivity).
    unfold upstream_request. cbv zeta. rewrite Hf. reflexivity. }
  unfold upstream_version, bind, lift. rewrite Hup.
  rewrite !field_of_record. fold up.
  rewrite scrape_state. subst sent_st. rewrite Hreq.
  destruct (fst (scrape W (field up "url") (field up "use_headers") init_state))
    as [text | e]; [| reflexivity].
  destruct (re_findall W (field up "pattern") text) as [matches | e];
    [| reflexivity].
  destruct (debug self); simpl.
  - unfold debug_lines. rewrite <- !app_assoc. simpl.
    destruct (version_loop W matches ""); reflexivity.
  - rewrite app_nil_r. destruct (version_loop W matches ""); reflexivity.
Qed.

Lemma upstream_record_cases (self : Toleo) (pkg : string) :
  (exists u, Py.get (Py.get_or_none (cfg self) pkg) "upstream" = Ok (VDict u)) \/
  has_record "upstream" (Py.get_or_none (cfg self) pkg) = false.
Proof.
  destruct (has_record "upstream" (Py.get_or_none (cfg self) pkg)) eqn:H.
  - left. apply get_with_record. exact H.
  - right. reflexivity.
Qed.

Lemma upstream_version_no_record (W : World) (self : Toleo) (pkg : string)
    (st : state) :
  has_record "upstream" (Py.get_or_none (cfg self) pkg) = false ->
  upstream_version W self pkg st = (Raise AttributeError, st).
Proof.
  intros Hno. unfold upstream_version, bind, lift.
  destruct (get_without_record _ _ Hno) as [Hget | [v [Hget Hv]]];
    rewrite Hget; [reflexivity |].
  rewrite (Hv "url"). reflexivity.
Qed.

(** X2: for a package with an upstream record the upstream resolver makes
    exactly one request, the one [scrape] makes for the record's [url] and
    [use_headers], whatever comes of it: a failed fetch, a pattern the
    engine refuses, or a version. *)
Theorem upstream_version_one_request (W : World) (self : Toleo) (pkg : string)
    (st : state)
    (Hrec : has_record "upstream" (Py.get_or_none (cfg self) pkg) = true) :
  net (snd (upstream_version W self pkg st)) =
    (net st ++ [upstream_request self pkg])%list.
Proof.
  destruct (get_with_record _ _ Hrec) as [u Hup].
  rewrite (upstream_version_eq W self pkg u st Hup).
  destruct (fst (scrape W _ _ init_state)) as [text | e]; [| reflexivity].
  destruct (re_findall W _ text) as [matches | e]; reflexivity.
Qed.

Lemma upstream_version_one_request_witness :
  has_record "upstream" (Py.get_or_none (cfg (Lab.app "head" Lab.head_cfg)) "etag") = true /\
  net (snd (upstream_version Lab.world (Lab.app "head" Lab.head_cfg) "etag" init_state))
    = [ReqHead (VStr "http://example.test/etag")].
Proof.
  split; [reflexivity |].
  apply (upstream_version_one_request Lab.world (Lab.app "head" Lab.head_cfg)
           "etag" init_state).
  reflexivity.
Defined.

(** X3: the [debug] flag changes neither the outcome of the upstream
    resolver nor its requests, and without the flag the resolver echoes
    nothing. *)
Theorem debug_only_echoes (W : World) (self : Toleo) (pkg : string) (st : state) :
  fst (upstream_version W (with_debug self true) pkg st) =
    fst (upstream_version W (with_debug self false) pkg st) /\
  net (snd (upstream_version W (with_debug self true) pkg st)) =
    net (snd (upstream_version W (with_debug self false) pkg st)) /\
  stdout (snd (upstream_version W (with_debug self false) pkg st)) = stdout st.
Proof.
  destruct (upstream_record_cases self pkg) as [[u Hup] | Hno].
  - rewrite (upstream_version_eq W (with_debug self true) pkg u st Hup).
    rewrite (upstream_version_eq W (with_debug self false) pkg u st Hup).
    change (upstream_request (with_debug self true) pkg)
      with (upstream_request (with_debug self false) pkg).
    destruct (fst (scrape W _ _ init_state)) as [text | e];
      [| repeat split; reflexivity].
    destruct (re_findall W _ text) as [matches | e];
      [| repeat split; reflexivity].
    simpl. rewrite app_nil_r. repeat split; reflexivity.
  - rewrite (upstream_version_no_record W (with_debug self true) pkg st Hno).
    rewrite (upstream_version_no_record W (with_debug self false) pkg st Hno).
    repeat split; reflexivity.
Qed.

(** X4: with the [debug] flag, once the content is fetched and the pattern
    applied, the resolver echoes four lines, the url, the parser, the header
    flag and the matches, in this order, also when comparing the matches
    then fails. *)
Theorem debug_echoes_four_lines (W : World) (self : Toleo) (pkg : string)
    (u : dict) (text : string) (matches : list value) (st : state)
    (Hdebug : debug self = true)
    (Hup : Py.get (Py.get_or_none (cfg self) pkg) "upstream" = Ok (VDict u))
    (Hscrape : fst (scrape W (field (VDict u) "url")
                      (field (VDict u) "use_headers") init_state) = Ok text)
    (Hfind : re_findall W (field (VDict u) "pattern") text = Ok matches) :
  stdout (snd (upstream_version W self pkg st)) =
    (stdout st ++ debug_lines W (VDict u) matches)%list /\
  List.length (debug_lines W (VDict u) matches) = 4.
Proof.
  rewrite (upstream_version_eq W self pkg u st Hup).
  rewrite Hscrape, Hfind, Hdebug. split; reflexivity.
Qed.

Lemma debug_echoes_four_lines_witness :
  stdout (snd (upstream_version Lab.world
                 (with_debug (Lab.app "head" Lab.head_cfg) true) "etag" init_state))
    = [ "url:" ++ tab ++ tab ++ "http://example.test/etag";
        "parser:" ++ tab ++ tab ++ "None";
        "use_headers:" ++ tab ++ "True";
        "matches:" ++ tab ++ "<list>" ].
Proof.
  destruct (debug_echoes_four_lines Lab.world
              (with_debug (Lab.app "head" Lab.head_cfg) true) "etag"
              [("url", VStr "http://example.test/etag");
               ("pattern", VStr "release-(\d+\.\d+)");
               ("use_headers", VBool true)]
              (Tables.dumps [("Location", "/files/release-7.2.zip")])
              [VStr "7.2"] init_state eq_refl eq_refl eq_refl eq_refl)
    as [Hout _].
  exact Hout.
Defined.

(** ** Matches that are not strings *)

Lemma version_loop_nonstring (W : World) (matches : list value) :
  forall held,
    existsb (fun m => negb (is_string m)) matches = true ->
    version_loop W matches held = Raise AttributeError.
Proof.
  induction matches as [| mtch rest IH]; intros held Hbad; [discriminate Hbad |].
  destruct mtch as [| | |m| |]; try reflexivity.
  simpl in Hbad. rewrite version_loop_step.
  destruct (tuple_compare (parse_version m) (parse_version held));
    apply IH; exact Hbad.
Qed.

(** X5: when one of the matches is not a string, as with a pattern of
    several groups, whose matches are tuples, the upstream resolver fails
    with an attribute fault: every match is handed to the version parser,
    which lowers it first. *)
Theorem upstream_version_tuple_match (W : World) (self : Toleo) (pkg : string)
    (u : dict) (text : string) (matches : list value)
    (Hup : Py.get (Py.get_or_none (cfg self) pkg) "upstream" = Ok (VDict u))
    (Hscrape : fst (scrape W (Py.get_or_none u "url")
                      (Py.get_or_none u "use_headers") init_state) = Ok text)
    (Hfind : re_findall W (Py.get_or_none u "pattern") text = Ok matches)
    (Hbad : existsb (fun m => negb (is_string m)) matches = true) :
  fst (upstream_version W self pkg init_state) = Raise AttributeError.
Proof.
  rewrite (upstream_version_run W self pkg u text matches Hup Hscrape Hfind).
  apply version_loop_nonstring. exact Hbad.
Qed.

Lemma upstream_version_tuple_match_witness :
  re_findall Lab.world (VStr "(\d+)\.(\d+)") "pair 3.4"
    = Ok [VList [VStr "3"; VStr "4"]] /\
  fst (upstream_version Lab.world (Lab.app "pair" Lab.pair_cfg) "pair" init_state)
    = Raise AttributeError.
Proof.
  split; [reflexivity |].
  apply (upstream_version_tuple_match Lab.world (Lab.app "pair" Lab.pair_cfg) "pair"
           [("url", VStr "http://example.test/pair"); ("pattern", VStr "(\d+)\.(\d+)");
            ("parser", VStr "regex"); ("use_headers", VBool false)]
           "pair 3.4" [VList [VStr "3"; VStr "4"]]); reflexivity.
Defined.

(** ** More on the comparator *)

(** X6: the comparator is transitive: the same answer on [a], [b] and on
    [b], [c] is the answer on [a], [c]. *)
Theorem ver_compare_transitive (a b c r : string)
    (Hab : ver_compare (VStr a) (VStr b) = Ok (Some r))
    (Hbc : ver_compare (VStr b) (VStr c) = Ok (Some r)) :
  ver_compare (VStr a) (VStr c) = Ok (Some r).
Proof.
  rewrite ver_compare_strings in *.
  destruct (tuple_compare (parse_version a) (parse_version b)) eqn:Eab;
    destruct (tuple_compare (parse_version b) (parse_version c)) eqn:Ebc;
    try (rewrite <- Hab in Hbc; discriminate Hbc);
    rewrite (tuple_compare_trans _ _ _ _ Eab Ebc); exact Hab.
Qed.

Lemma ver_compare_transitive_witness :
  ver_compare (VStr "1.2.5") (VStr "1.3.0-rc1") = Ok (Some "lt") /\
  ver_compare (VStr "1.3.0-rc1") (VStr "1.3.0") = Ok (Some "lt") /\
  ver_compare (VStr "1.2.5") (VStr "1.3.0") = Ok (Some "lt").
Proof.
  split; [reflexivity |]. split; [reflexivity |].
  apply (ver_compare_transitive "1.2.5" "1.3.0-rc1" "1.3.0" "lt"); reflexivity.
Defined.

Lemma lower_char_idem (c : ascii) : lower_char (lower_char c) = lower_char c.
Proof. destruct c as [[] [] [] [] [] [] [] []]; reflexivity. Qed.

Lemma lower_idem (s : string) : lower (lower s) = lower s.
Proof.
  induction s as [| c s IH]; simpl; [reflexivity |].
  rewrite lower_char_idem, IH. reflexivity.
Qed.

(** X7: the comparator ignores the case of letters: two versions compare as
    their lower-case forms do. *)
Theorem ver_compare_ignores_case (a b : string) :
  ver_compare (VStr a) (VStr b) = ver_compare (VStr (lower a)) (VStr (lower b)).
Proof.
  rewrite !ver_compare_strings.
  unfold parse_version. rewrite !lower_idem. reflexivity.
Qed.

(** X8: a version with the release suffix [-0] appended compares greater
    than the version itself, so the value the upstream resolver holds after
    taking a match is above that match. *)
Theorem ver_compare_release_suffix (m : string) :
  ver_compare (VStr (m ++ "-0")) (VStr m) = Ok (Some "gt") /\
  ver_compare (VStr m) (VStr (m ++ "-0")) = Ok (Some "lt").
Proof.
  rewrite !ver_compare_strings.
  rewrite (tuple_compare_opp (parse_version (m ++ "-0")) (parse_version m)).
  rewrite release_suffix_greater. split; reflexivity.
Qed.

(** ** The repo resolver, step by step *)

Lemma repo_version_eq (W : World) (self : Toleo) (pkg : string) (st : state) :
  has_record "repo" (Py.get_or_none (cfg self) pkg) = true ->
  repo_version W self pkg st =
    (data <-- requests_get_json W aur_rpc_url [("type", "info"); ("arg", pkg)] ;;
     results <-- Py.get data "results" ;;
     Py.get results "Version",
     mkState (stdout st) (net st ++ [aur_query pkg])).
Proof.
  intros Hrepo.
  destruct (get_with_record _ _ Hrepo) as [r Hget].
  unfold repo_version, aur_api, aur_query, bind, lift, sent, ret.
  rewrite Hget. simpl.
  destruct (requests_get_json W aur_rpc_url _) as [data | e]; simpl; [| reflexivity].
  destruct (Py.get data "results") as [results | e]; simpl; [| reflexivity].
  destruct (Py.get results "Version"); reflexivity.
Qed.

Lemma repo_version_no_record (W : World) (self : Toleo) (pkg : string) (st : state) :
  has_record "repo" (Py.get_or_none (cfg self) pkg) = false ->
  repo_version W self pkg st = (Raise AttributeError, st).
Proof.
  intros Hno. unfold repo_version, bind, lift.
  destruct (get_without_record _ _ Hno) as [Hget | [v [Hget Hv]]];
    rewrite Hget; [reflexivity |].
  rewrite (Hv "url"). reflexivity.
Qed.

(** X9: the repo resolver reads the repo record of a package and uses
    nothing of it: two application objects in which the package has a repo
    record resolve it alike, whatever [url] and [parser] the records give;
    and the resolver never echoes, with or without the debug flag. *)
Theorem repo_record_is_unused (W : World) (self other : Toleo) (pkg : string)
    (st : state)
    (Hself : has_record "repo" (Py.get_or_none (cfg self) pkg) = true)
    (Hother : has_record "repo" (Py.get_or_none (cfg other) pkg) = true) :
  repo_version W self pkg st = repo_version W other pkg st /\
  stdout (snd (repo_version W self pkg st)) = stdout st.
Proof.
  rewrite (repo_version_eq W self pkg st Hself).
  rewrite (repo_version_eq W other pkg st Hother).
  split; reflexivity.
Qed.

Lemma repo_record_is_unused_witness :
  repo_version Lab.world (Lab.app "mixed" Lab.mixed_cfg) "alpha" init_state =
  repo_version Lab.world
    (Lab.app "other" [("alpha", VDict [("repo", VDict [("url", VStr "ftp://elsewhere")])])])
    "alpha" init_state.
Proof.
  apply (repo_record_is_unused Lab.world (Lab.app "mixed" Lab.mixed_cfg)
           (Lab.app "other"
              [("alpha", VDict [("repo", VDict [("url", VStr "ftp://elsewhere")])])])
           "alpha" init_state); reflexivity.
Defined.

(** X10: when the reply of the AUR holds no [results] mapping, as for a
    package the AUR does not know, whose [results] is an empty list, the
    repo resolver fails with an attribute fault after its one query. *)
Theorem repo_version_unknown_package (W : World) (self : Toleo) (pkg : string)
    (data : value) (st : state)
    (Hrepo : has_record "repo" (Py.get_or_none (cfg self) pkg) = true)
    (Hreply : requests_get_json W aur_rpc_url [("type", "info"); ("arg", pkg)]
                = Ok data)
    (Hresults : has_record "results" data = false) :
  repo_version W self pkg st =
    (Raise AttributeError, mkState (stdout st) (net st ++ [aur_query pkg])).
Proof.
  rewrite (repo_version_eq W self pkg st Hrepo). rewrite Hreply. simpl.
  destruct (get_without_record _ _ Hresults) as [Hget | [v [Hget Hv]]];
    rewrite Hget; simpl; [reflexivity |].
  rewrite (Hv "Version"). reflexivity.
Qed.

Lemma repo_version_unknown_package_witness :
  requests_get_json Lab.world aur_rpc_url [("type", "info"); ("arg", "etag")]
    = Ok (VDict [("version", VInt 1); ("type", VStr "info");
                 ("resultcount", VInt 0); ("results", VList [])]) /\
  repo_version Lab.world (Lab.app "head" Lab.head_cfg) "etag" init_state =
    (Raise AttributeError, mkState [] [aur_query "etag"]).
Proof.
  split; [reflexivity |].
  apply (repo_version_unknown_package Lab.world (Lab.app "head" Lab.head_cfg) "etag"
           (VDict [("version", VInt 1); ("type", VStr "info");
                   ("resultcount", VInt 0); ("results", VList [])]) init_state);
    reflexivity.
Defined.

(** X11: when the repo resolver returns something that is not a string, as
    [None] for a result record without [Version], the display of the repo
    version fails with an attribute fault: the package line is echoed, the
    repo line and the closing divider are not. *)
Theorem repo_block_version_not_string (W : World) (self : Toleo) (pkg : string)
    (v : value) (st : state)
    (Hret : fst (repo_version W self pkg init_state) = Ok v)
    (Hv : is_string v = false) :
  repo_block W self pkg st =
    (Raise AttributeError,
     mkState (stdout st ++ [package_line pkg]) (net st ++ [aur_query pkg])).
Proof.
  destruct (has_record "repo" (Py.get_or_none (cfg self) pkg)) eqn:Hrepo.
  - unfold repo_block, bind, echo, lift.
    rewrite (repo_version_eq W self pkg _ Hrepo).
    rewrite (repo_version_eq W self pkg init_state Hrepo) in Hret.
    simpl in Hret |- *. rewrite Hret.
    destruct v; try discriminate Hv; reflexivity.
  - rewrite (repo_version_no_record W self pkg init_state Hrepo) in Hret.
    discriminate Hret.
Qed.

Lemma repo_block_version_not_string_witness :
  fst (repo_version Lab.versionless (Lab.app "mixed" Lab.mixed_cfg) "alpha" init_state)
    = Ok VNone /\
  repo_block Lab.versionless (Lab.app "mixed" Lab.mixed_cfg) "alpha" init_state =
    (Raise AttributeError, mkState [package_line "alpha"] [aur_query "alpha"]).
Proof.
  split; [reflexivity |].
  apply (repo_block_version_not_string Lab.versionless
           (Lab.app "mixed" Lab.mixed_cfg) "alpha" VNone init_state); reflexivity.
Defined.

(** ** Whole reports *)

Section Loops.

Context {A : Type}.
Variable body : A -> M unit.
Variable out : A -> state.

Lemma for_each_all_ok (l : list A) :
  (forall x, In x l -> forall st, body x st = (Ok tt, plus st (out x))) ->
  forall st,
    for_each l body st =
      (Ok tt,
       mkState (stdout st ++ flat_map (fun x => stdout (out x)) l)
               (net st ++ flat_map (fun x => net (out x)) l)).
Proof.
  induction l as [| x rest IH]; intros Hall st.
  - simpl. rewrite !app_nil_r. destruct st; reflexivity.
  - simpl. unfold bind. rewrite (Hall x (or_introl eq_refl)).
    rewrite IH by (intros y Hy; apply Hall; right; exact Hy).
    unfold plus. simpl. rewrite <- !app_assoc. reflexivity.
Qed.

Lemma for_each_abort (pre post : list A) (k : A) (e : exn) (d : state) :
  (forall x, In x pre -> forall st, body x st = (Ok tt, plus st (out x))) ->
  (forall st, body k st = (Raise e, plus st d)) ->
  forall st,
    for_each (pre ++ k :: post) body st =
      (Raise e,
       mkState (stdout st ++ flat_map (fun x => stdout (out x)) pre ++ stdout d)
               (net st ++ flat_map (fun x => net (out x)) pre ++ net d)).
Proof.
  intros Hpre Hk. induction pre as [| x rest IH]; intros st.
  - simpl. unfold bind. rewrite Hk. reflexivity.
  - simpl. unfold bind. rewrite (Hpre x (or_introl eq_refl)).
    rewrite IH by (intros y Hy; apply Hpre; right; exact Hy).
    unfold plus. simpl. rewrite <- !app_assoc. reflexivity.
Qed.

End Loops.

Lemma flat_map_single {A B} (f : A -> B) (l : list A) :
  flat_map (fun x => [f x]) l = map f l.
Proof. induction l as [| x l IH]; simpl; [reflexivity | rewrite IH; reflexivity]. Qed.

Section BlockOutcomes.

Variable W : World.
Variable self : Toleo.

Lemma repo_block_ok (pkg s : string) :
  fst (repo_version W self pkg init_state) = Ok (VStr s) ->
  forall st,
    repo_block W self pkg st =
      (Ok tt,
       plus st (mkState [package_line pkg; repo_line (PyStr.rstrip s "-0"); line self]
                        [aur_query pkg])).
Proof.
  intros Hret st.
  destruct (has_record "repo" (Py.get_or_none (cfg self) pkg)) eqn:Hrepo.
  - unfold repo_block, bind, echo, lift.
    rewrite (repo_version_eq W self pkg _ Hrepo).
    rewrite (repo_version_eq W self pkg init_state Hrepo) in Hret.
    simpl in Hret |- *. rewrite Hret. simpl.
    unfold plus. simpl. rewrite <- !app_assoc. reflexivity.
  - rewrite (repo_version_no_record W self pkg init_state Hrepo) in Hret.
    discriminate Hret.
Qed.

Lemma upstream_version_quiet (pkg v : string) :
  debug self = false ->
  fst (upstream_version W self pkg init_state) = Ok v ->
  forall st,
    upstream_version W self pkg st =
      (Ok v, mkState (stdout st) (net st ++ [upstream_request self pkg])).
Proof.
  intros Hdebug Hret st.
  destruct (upstream_record_cases self pkg) as [[u Hup] | Hno].
  - rewrite (upstream_version_eq W self pkg u init_state Hup) in Hret.
    rewrite (upstream_version_eq W self pkg u st Hup).
    destruct (fst (scrape W _ _ init_state)) as [text | e]; [| discriminate Hret].
    destruct (re_findall W _ text) as [matches | e]; [| discriminate Hret].
    simpl in Hret. rewrite Hret, Hdebug, app_nil_r. reflexivity.
  - rewrite (upstream_version_no_record W self pkg init_state Hno) in Hret.
    discriminate Hret.
Qed.

Lemma upstream_block_ok (pkg v : string) :
  debug self = false ->
  fst (upstream_version W self pkg init_state) = Ok v ->
  forall st,
    upstream_block W self pkg st =
      (Ok tt,
       plus st (mkState [package_line pkg; upstream_line (PyStr.rstrip v "-0");
                         line self]
                        [upstream_request self pkg])).
Proof.
  intros Hdebug Hret st. unfold upstream_block, bind, echo.
  rewrite (upstream_version_quiet pkg v Hdebug Hret). simpl.
  unfold plus. simpl. rewrite <- !app_assoc. reflexivity.
Qed.

Lemma compare_block_ok (pkg v s : string) :
  debug self = false ->
  fst (upstream_version W self pkg init_state) = Ok v ->
  fst (repo_version W self pkg init_state) = Ok (VStr s) ->
  forall st,
    compare_block W self pkg st =
      (Ok tt,
       plus st (mkState [package_line pkg; upstream_line (PyStr.rstrip v "-0");
                         repo_line (PyStr.rstrip s "-0"); line self]
                        [upstream_request self pkg; aur_query pkg])).
Proof.
  intros Hdebug Hup Hret st. unfold compare_block, bind, echo, lift.
  rewrite (upstream_version_quiet pkg v Hdebug Hup). simpl.
  destruct (has_record "repo" (Py.get_or_none (cfg self) pkg)) eqn:Hrepo.
  - rewrite (repo_version_eq W self pkg _ Hrepo).
    rewrite (repo_version_eq W self pkg init_state Hrepo) in Hret.
    simpl in Hret |- *. rewrite Hret. simpl.
    unfold plus. simpl. rewrite <- !app_assoc. reflexivity.
  - rewrite (repo_version_no_record W self pkg init_state Hrepo) in Hret.
    discriminate Hret.
Qed.

End BlockOutcomes.

(** X12: when the repo resolver returns a string for every package of the
    collection, the [repo] report is the divider, then for each package in
    the order of the collection its package line, its repo line with the
    trimmed version, and the divider; the requests are one query per
    package, in the same order. *)
Theorem action_repo_report (W : World) (self : Toleo) (found : string -> string)
    (Hall : forall k, In k (Py.keys (cfg self)) ->
              fst (repo_version W self k init_state) = Ok (VStr (found k))) :
  action_repo W self init_state =
    (Ok tt,
     mkState
       (line self ::
        flat_map (fun k => [package_line k;
                            repo_line (PyStr.rstrip (found k) "-0"); line self])
                 (Py.keys (cfg self)))
       (map aur_query (Py.keys (cfg self)))).
Proof.
  unfold action_repo, bind, echo. simpl.
  rewrite (for_each_all_ok (repo_block W self)
             (fun k => mkState [package_line k;
                                repo_line (PyStr.rstrip (found k) "-0"); line self]
                               [aur_query k])).
  - simpl. rewrite flat_map_single. reflexivity.
  - intros k Hk st. apply repo_block_ok, Hall, Hk.
Qed.

(** X13: without the debug flag, when the upstream resolver returns for
    every package of the collection, the [upstream] report is the divider,
    then for each package in order its package line, its upstream line with
    the trimmed version, and the divider; the requests are one fetch per
    package, in the same order. *)
Theorem action_upstream_report (W : World) (self : Toleo) (found : string -> string)
    (Hquiet : debug self = false)
    (Hall : forall k, In k (Py.keys (cfg self)) ->
              fst (upstream_version W self k init_state) = Ok (found k)) :
  action_upstream W self init_state =
    (Ok tt,
     mkState
       (line self ::
        flat_map (fun k => [package_line k;
                            upstream_line (PyStr.rstrip (found k) "-0"); line self])
                 (Py.keys (cfg self)))
       (map (upstream_request self) (Py.keys (cfg self)))).
Proof.
  unfold action_upstream, bind, echo. simpl.
  rewrite (for_each_all_ok (upstream_block W self)
             (fun k => mkState [package_line k;
                                upstream_line (PyStr.rstrip (found k) "-0"); line self]
                               [upstream_request self k])).
  - simpl. rewrite flat_map_single. reflexivity.
  - intros k Hk st. apply upstream_block_ok; [exact Hquiet | apply Hall, Hk].
Qed.

(** X14: without the debug flag, when both resolvers return for every
    package, the [compare] report is the divider, then for each package in
    order its package line, its upstream line, its repo line and the
    divider; for each package the page is fetched before the AUR is
    queried. *)
Theorem action_compare_report (W : World) (self : Toleo)
    (upstream repo : string -> string)
    (Hquiet : debug self = false)
    (Hup : forall k, In k (Py.keys (cfg self)) ->
             fst (upstream_version W self k init_state) = Ok (upstream k))
    (Hrepo : forall k, In k (Py.keys (cfg self)) ->
               fst (repo_version W self k init_state) = Ok (VStr (repo k))) :
  action_compare W self init_state =
    (Ok tt,
     mkState
       (line self ::
        flat_map (fun k => [package_line k;
                            upstream_line (PyStr.rstrip (upstream k) "-0");
                            repo_line (PyStr.rstrip (repo k) "-0"); line self])
                 (Py.keys (cfg self)))
       (flat_map (fun k => [upstream_request self k; aur_query k])
                 (Py.keys (cfg self)))).
Proof.
  unfold action_compare, bind, echo. simpl.
  rewrite (for_each_all_ok (compare_block W self)
             (fun k => mkState [package_line k;
                                upstream_line (PyStr.rstrip (upstream k) "-0");
                                repo_line (PyStr.rstrip (repo k) "-0"); line self]
                               [upstream_request self k; aur_query k])).
  - reflexivity.
  - intros k Hk st.
    apply compare_block_ok; [exact Hquiet | apply Hup, Hk | apply Hrepo, Hk].
Qed.

Lemma action_repo_report_witness :
  action_repo demo (app "foo" foo_cfg) init_state =
    (Ok tt,
     mkState [divider;
              package_line "foobar"; repo_line "2.1-1"; divider;
              package_line "foo-lib"; repo_line "0.9-3"; divider;
              package_line "baz"; repo_line "3.3-1"; divider]
             [aur_query "foobar"; aur_query "foo-lib"; aur_query "baz"]).
Proof.
  apply (action_repo_report demo (app "foo" foo_cfg)
           (fun k => if k =? "foobar" then "2.1-1"
                     else if k =? "foo-lib" then "0.9-3" else "3.3-1")).
  intros k [<- | [<- | [<- | []]]]; reflexivity.
Defined.

Lemma action_upstream_report_witness :
  action_upstream demo (app "foo" foo_cfg) init_state =
    (Ok tt,
     mkState [divider;
              package_line "foobar"; upstream_line "2.1"; divider;
              package_line "foo-lib"; upstream_line "0.9"; divider;
              package_line "baz"; upstream_line "3.3"; divider]
             [ReqGet (VStr "http://example.test/foobar");
              ReqGet (VStr "http://example.test/foo-lib");
              ReqGet (VStr "http://example.test/baz")]).
Proof.
  apply (action_upstream_report demo (app "foo" foo_cfg)
           (fun k => if k =? "foobar" then "2.1-0"
                     else if k =? "foo-lib" then "0.9-0" else "3.3-0")).
  - reflexivity.
  - intros k [<- | [<- | [<- | []]]]; reflexivity.
Defined.

Lemma action_compare_report_witness :
  action_compare demo (app "series" series_cfg) init_state =
    (Ok tt,
     mkState [divider; package_line "tool"; upstream_line "1.3.0-rc1";
              repo_line "1.2.5-2"; divider]
             [ReqGet (VStr "http://example.test/tool"); aur_query "tool"]).
Proof.
  apply (action_compare_report demo (app "series" series_cfg)
           (fun _ => "1.3.0-rc1-0") (fun _ => "1.2.5-2")).
  - reflexivity.
  - intros k [<- | []]; reflexivity.
  - intros k [<- | []]; reflexivity.
Defined.

(** ** A failure ends the batch *)

Lemma framed_compare_block (W : World) (self : Toleo) (pkg : string) :
  framed (compare_block W self pkg).
Proof.
  unfold compare_block. frame;
    try apply framed_upstream_version; try apply framed_repo_version;
    try apply framed_scrape; try apply framed_aur_api.
Qed.

(** X15: in the [compare] report the first package whose block fails ends
    the run with that failure: the output and the requests are those of the
    packages before it and of the failing block up to its failure, and the
    packages after it are neither resolved nor shown. *)
Theorem action_compare_stops_at_failure (W : World) (self : Toleo)
    (pre post : list string) (k : string) (e : exn)
    (Hkeys : Py.keys (cfg self) = (pre ++ k :: post)%list)
    (Hpre : forall x, In x pre -> fst (compare_block W self x init_state) = Ok tt)
    (Hk : fst (compare_block W self k init_state) = Raise e) :
  action_compare W self init_state =
    (Raise e,
     mkState
       (line self ::
        flat_map (fun x => stdout (snd (compare_block W self x init_state)))
                 (pre ++ [k]))
       (flat_map (fun x => net (snd (compare_block W self x init_state)))
                 (pre ++ [k]))).
Proof.
  unfold action_compare, bind, echo. simpl. rewrite Hkeys.
  rewrite (for_each_abort (compare_block W self)
             (fun x => snd (compare_block W self x init_state))
             pre post k e (snd (compare_block W self k init_state))).
  - simpl. rewrite !flat_map_app. simpl. rewrite !app_nil_r. reflexivity.
  - intros x Hx st. rewrite (framed_compare_block W self x st).
    rewrite (Hpre x Hx). reflexivity.
  - intros st. rewrite (framed_compare_block W self k st).
    rewrite Hk. reflexivity.
Qed.

Lemma action_compare_stops_at_failure_witness :
  action_compare Lab.world (Lab.app "mixed" Lab.mixed_cfg) init_state =
    (Raise AttributeError,
     mkState [divider; package_line "alpha"; upstream_line "1.1";
              repo_line "1.10-1"; divider; package_line "broken"]
             [ReqGet (VStr "http://example.test/alpha"); aur_query "alpha"]).
Proof.
  apply (action_compare_stops_at_failure Lab.world (Lab.app "mixed" Lab.mixed_cfg)
           ["alpha"] ["omega"] "broken" AttributeError).
  - reflexivity.
  - intros x [<- | []]. reflexivity.
  - reflexivity.
Defined.

(** ** Each mode makes its own kind of request *)

Section RequestKinds.

Variable P : request -> bool.

Lemma requests_only_quiet {A} (m : M A) :
  (forall st, net (snd (m st)) = net st) -> requests_only P m.
Proof.
  intros H st. exists []. rewrite H, app_nil_r. split; reflexivity.
Qed.

Lemma requests_only_ret {A} (a : A) : requests_only P (ret a).
Proof. apply requests_only_quiet. reflexivity. Qed.

Lemma requests_only_lift {A} (r : result A) : requests_only P (lift r).
Proof. apply requests_only_quiet. reflexivity. Qed.

Lemma requests_only_echo (msg : string) : requests_only P (echo msg).
Proof. apply requests_only_quiet. reflexivity. Qed.

Lemma requests_only_sent (r : request) : P r = true -> requests_only P (sent r).
Proof.
  intros Hr st. exists [r]. split; [reflexivity |]. simpl. rewrite Hr. reflexivity.
Qed.

Lemma requests_only_bind {A B} (m : M A) (k : A -> M B) :
  requests_only P m -> (forall a, requests_only P (k a)) ->
  requests_only P (bind m k).
Proof.
  intros Hm Hk st. unfold bind.
  destruct (Hm st) as [a1 [Hn1 Hp1]].
  destruct (m st) as [[a | e] st1]; simpl in Hn1.
  - destruct (Hk a st1) as [a2 [Hn2 Hp2]].
    exists (a1 ++ a2)%list. split.
    + rewrite Hn2, Hn1, app_assoc. reflexivity.
    + rewrite forallb_app, Hp1, Hp2. reflexivity.
  - exists a1. split; [exact Hn1 | exact Hp1].
Qed.

Lemma requests_only_when (c : bool) (body : M unit) :
  requests_only P body -> requests_only P (when c body).
Proof. destruct c; simpl; [trivial | intros _; apply requests_only_ret]. Qed.

Lemma requests_only_for_each {A} (l : list A) (body : A -> M unit) :
  (forall x, requests_only P (body x)) -> requests_only P (for_each l body).
Proof.
  intros Hbody. induction l as [| x rest IH]; simpl.
  - apply requests_only_ret.
  - apply requests_only_bind; [apply Hbody | intros _; exact IH].
Qed.

End RequestKinds.

Ltac kinds :=
  repeat first
    [ apply requests_only_bind; [| intros ?]
    | apply requests_only_for_each; intros ?
    | apply requests_only_when
    | apply requests_only_ret
    | apply requests_only_lift
    | apply requests_only_echo
    | apply requests_only_sent; reflexivity ].

Lemma scrape_pages_only (W : World) (url use_headers : value) :
  requests_only is_page_request (scrape W url use_headers).
Proof. unfold scrape. destruct (Py.truthy use_headers); kinds. Qed.

Lemma upstream_version_pages_only (W : World) (self : Toleo) (pkg : string) :
  requests_only is_page_request (upstream_version W self pkg).
Proof. unfold upstream_version. kinds. apply scrape_pages_only. Qed.

Lemma repo_version_queries_only (W : World) (self : Toleo) (pkg : string) :
  requests_only is_aur_query (repo_version W self pkg).
Proof. unfold repo_version, aur_api. kinds. Qed.

Lemma init_requests_nothing (W : World) (P : request -> bool) (debug : bool)
    (collection : string) (path_override limit : option string) :
  requests_only P (Toleo_init W debug collection path_override limit).
Proof. unfold Toleo_init. kinds. Qed.

(** X16: the [upstream] mode never queries the AUR and the [repo] mode never
    fetches an upstream page, whatever the collection holds and however the
    run ends: every request of an [upstream] run is a GET or HEAD of a page,
    every request of a [repo] run is a query to the AUR endpoint. *)
Theorem modes_keep_to_their_requests (W : World) (debug : bool)
    (collection : string) (path_override limit : option string) :
  forallb is_page_request
    (net (snd (cli W "upstream" debug collection path_override limit init_state)))
    = true /\
  forallb is_aur_query
    (net (snd (cli W "repo" debug collection path_override limit init_state)))
    = true.
Proof.
  split.
  - assert (H : requests_only is_page_request
                  (cli W "upstream" debug collection path_override limit)).
    { unfold cli. apply requests_only_bind;
        [apply init_requests_nothing | intros app].
      simpl. unfold action_upstream, upstream_block. kinds;
        try apply upstream_version_pages_only; try apply scrape_pages_only. }
    destruct (H init_state) as [added [-> Hadded]]. exact Hadded.
  - assert (H : requests_only is_aur_query
                  (cli W "repo" debug collection path_override limit)).
    { unfold cli. apply requests_only_bind;
        [apply init_requests_nothing | intros app].
      simpl. unfold action_repo, repo_block. kinds;
        try apply repo_version_queries_only. }
    destruct (H init_state) as [added [-> Hadded]]. exact Hadded.
Qed.

(** ** More on loading the configuration *)

Lemma contains_empty (s : string) : contains "" s = true.
Proof. rewrite contains_unfold. destruct s; reflexivity. Qed.

Lemma filter_keeps_all (d : dict) : filter (keeps "") d = d.
Proof.
  induction d as [| [k v] d IH]; simpl; [reflexivity |].
  unfold keeps at 1. simpl. rewrite contains_empty, IH. reflexivity.
Qed.

Lemma read_config_limit (W : World) (p l : string) (full_cfg : dict) :
  is_file W p = true -> yaml_load W p = Ok full_cfg ->
  NoDup (Py.keys full_cfg) ->
  read_config W p (Some l) = Ok (filter (keeps l) full_cfg).
Proof.
  intros Hfile Hload Hkeys. unfold read_config. rewrite Hfile, Hload. simpl.
  pose proof (limit_loop_filter l full_cfg [] Hkeys) as Hloop.
  simpl in Hloop. exact Hloop.
Qed.

(** X17: an empty name filter keeps every package: the empty string is in
    every name, so [--limit ''] loads the collection as no limit does. *)
Theorem empty_limit_keeps_all (W : World) (p : string) (full_cfg : dict)
    (Hfile : is_file W p = true)
    (Hload : yaml_load W p = Ok full_cfg)
    (Hkeys : NoDup (Py.keys full_cfg)) :
  read_config W p (Some "") = read_config W p None /\
  read_config W p (Some "") = Ok full_cfg.
Proof.
  rewrite (read_config_limit W p "" full_cfg Hfile Hload Hkeys).
  rewrite filter_keeps_all.
  unfold read_config. rewrite Hfile, Hload. split; reflexivity.
Qed.

Lemma foo_keys_distinct : NoDup (Py.keys foo_cfg).
Proof.
  repeat constructor; simpl; intros H;
    repeat (destruct H as [H | H]; [discriminate H |]); exact H.
Qed.

Lemma empty_limit_keeps_all_witness :
  read_config demo (app_dir ++ "/foo.yaml") (Some "") = Ok foo_cfg.
Proof.
  apply (empty_limit_keeps_all demo (app_dir ++ "/foo.yaml") foo_cfg
           eq_refl eq_refl foo_keys_distinct).
Defined.

Lemma dict_get_filter (l : string) (d : dict) (k : string) :
  Py.dict_get (filter (keeps l) d) k =
  if contains l k then Py.dict_get d k else None.
Proof.
  induction d as [| [k' v] d IH]; simpl.
  - destruct (contains l k); reflexivity.
  - unfold keeps at 1. simpl.
    destruct (String.eqb_spec k' k) as [-> | Hne].
    + destruct (contains l k) eqn:Hk.
      * simpl. rewrite String.eqb_refl. reflexivity.
      * rewrite IH. try rewrite Hk. reflexivity.
    + destruct (contains l k') eqn:Hk'.
      * simpl. rewrite (proj2 (String.eqb_neq k' k) Hne). exact IH.
      * exact IH.
Qed.

(** X18: narrowing changes no definition: in the collection loaded with a
    name filter, a package whose name contains the filter has the
    definition the file gives it, and any other name is absent, so looking
    it up gives [None]. *)
Theorem limit_keeps_definitions (W : World) (p l : string)
    (full_cfg narrowed : dict) (k : string)
    (Hfile : is_file W p = true)
    (Hload : yaml_load W p = Ok full_cfg)
    (Hkeys : NoDup (Py.keys full_cfg))
    (Hread : read_config W p (Some l) = Ok narrowed) :
  Py.get_or_none narrowed k =
    if contains l k then Py.get_or_none full_cfg k else VNone.
Proof.
  rewrite (read_config_limit W p l full_cfg Hfile Hload Hkeys) in Hread.
  injection Hread as <-.
  unfold Py.get_or_none. rewrite dict_get_filter.
  destruct (contains l k); reflexivity.
Qed.

Lemma limit_keeps_definitions_witness :
  Py.get_or_none (filter (keeps "foo") foo_cfg) "foo-lib"
    = package "http://example.test/foo-lib" "foo-lib-(\d+\.\d+)" /\
  Py.get_or_none (filter (keeps "foo") foo_cfg) "baz" = VNone.
Proof.
  split.
  - apply (limit_keeps_definitions demo (app_dir ++ "/foo.yaml") "foo" foo_cfg
             (filter (keeps "foo") foo_cfg) "foo-lib"
             eq_refl eq_refl foo_keys_distinct eq_refl).
  - apply (limit_keeps_definitions demo (app_dir ++ "/foo.yaml") "foo" foo_cfg
             (filter (keeps "foo") foo_cfg) "baz"
             eq_refl eq_refl foo_keys_distinct eq_refl).
Defined.

(** X19: a configuration file that exists and cannot be loaded is not
    handled: the failure of the loader is the outcome of the program for
    every action, and nothing is echoed or requested. *)
Theorem load_failure_propagates (W : World) (action : string) (debug : bool)
    (collection : string) (path_override limit : option string)
    (p : string) (e : exn)
    (Hpath : find_config W path_override collection = Ok p)
    (Hfile : is_file W p = true)
    (Hload : yaml_load W p = Raise e) :
  cli W action debug collection path_override limit init_state
    = (Raise e, init_state).
Proof.
  unfold cli, Toleo_init, bind, lift. rewrite Hpath.
  unfold read_config. rewrite Hfile, Hload. reflexivity.
Qed.

Lemma load_failure_propagates_witness :
  cli Lab.unreadable "compare" false "mixed" None (Some "a") init_state
    = (Raise (LibraryError "yaml.YAMLError"), init_state).
Proof.
  apply (load_failure_propagates Lab.unreadable "compare" false "mixed" None
           (Some "a") (Lab.app_dir ++ "/mixed.yaml")); reflexivity.
Defined.

(** X20: an empty path override counts as none: [cli] with the override
    [''] does what it does without an override, in the application
    directory. *)
Theorem empty_override_is_none (W : World) (action : string) (debug : bool)
    (collection : string) (limit : option string) (st : state) :
  find_config W (Some "") collection = find_config W None collection /\
  cli W action debug collection (Some "") limit st =
    cli W action debug collection None limit st.
Proof.
  split; [reflexivity |].
  unfold cli, Toleo_init, bind, lift, ret.
  change (find_config W (Some "") collection) with (find_config W None collection).
  destruct (find_config W None collection) as [p | e]; [| reflexivity].
  destruct (read_config W p limit) as [cfg | e]; reflexivity.
Qed.

(** ** The display of versions that end in a zero *)

Lemma rstrip_absorbs_release (m : string) :
  PyStr.rstrip (m ++ "-0") "-0" = PyStr.rstrip m "-0".
Proof.
  induction m as [| c rest IH]; [reflexivity |].
  change (String c rest ++ "-0") with (String c (rest ++ "-0")).
  simpl. rewrite IH. reflexivity.
Qed.

Lemma rstrip_end (s chars : string) (c : ascii) :
  last_char (PyStr.rstrip s chars) = Some c -> mem c chars = false.
Proof.
  induction s as [| d rest IH]; simpl; [discriminate |].
  destruct (PyStr.rstrip rest chars) as [| x r] eqn:Hr; simpl.
  - destruct (mem d chars) eqn:Hd; simpl; [discriminate |].
    intros H. injection H as <-. exact Hd.
  - intros H. apply IH. exact H.
Qed.

(** X21: the upstream line shows the resolved match without the [0] and
    [-] characters at its end: for a resolved version [m-0] the line shows
    [m] trimmed, which never ends in [0] or [-], so [1.10] is shown as
    [1.1]. *)
Theorem upstream_line_drops_zeros (W : World) (self : Toleo) (pkg m : string)
    (Hret : fst (upstream_version W self pkg init_state) = Ok (m ++ "-0")) :
  let up := snd (upstream_version W self pkg init_state) in
  upstream_block W self pkg init_state =
    (Ok tt,
     mkState (package_line pkg ::
              (stdout up ++ [upstream_line (PyStr.rstrip m "-0"); line self])%list)
             (net up)) /\
  trimmed_end (PyStr.rstrip m "-0") = false.
Proof.
  intros up. split.
  - rewrite (upstream_block_run W self pkg _ Hret).
    rewrite rstrip_absorbs_release. reflexivity.
  - unfold trimmed_end.
    destruct (last_char (PyStr.rstrip m "-0")) as [c |] eqn:Hc; [| reflexivity].
    apply (rstrip_end m "-0" c Hc).
Qed.

Lemma upstream_line_drops_zeros_witness :
  fst (upstream_version Lab.world (Lab.app "mixed" Lab.mixed_cfg) "alpha" init_state)
    = Ok "1.10-0" /\
  upstream_block Lab.world (Lab.app "mixed" Lab.mixed_cfg) "alpha" init_state =
    (Ok tt,
     mkState [package_line "alpha"; upstream_line "1.1"; divider]
             [ReqGet (VStr "http://example.test/alpha")]).
Proof.
  split; [reflexivity |].
  destruct (upstream_line_drops_zeros Lab.world (Lab.app "mixed" Lab.mixed_cfg)
              "alpha" "1.10" eq_refl) as [Hblock _].
  exact Hblock.
Defined.

(** ** Scanning matches that were seen before *)

Lemma version_loop_app (W : World) (xs ys : list value) :
  forall held,
    version_loop W (xs ++ ys) held =
    (v <-- version_loop W xs held ;; version_loop W ys v).
Proof.
  induction xs as [| x rest IH]; intros held; [reflexivity |].
  simpl. destruct (ver_compare x (VStr held)) as [c |]; simpl; [| reflexivity].
  destruct (is_gt c); apply IH.
Qed.

Lemma version_loop_settled (W : World) (ms : list string) (held : string) :
  (forall m, In m ms ->
     tuple_compare (parse_version m) (parse_version held) <> Gt) ->
  version_loop W (map VStr ms) held = Ok held.
Proof.
  induction ms as [| m rest IH]; intros Hle; [reflexivity |].
  change (map VStr (m :: rest)) with (VStr m :: map VStr rest).
  rewrite version_loop_step.
  pose proof (Hle m (or_introl eq_refl)) as Hm.
  destruct (tuple_compare (parse_version m) (parse_version held));
    try congruence; apply IH; intros x Hx; apply Hle; right; exact Hx.
Qed.

(** X22: matches that repeat earlier ones do not change the result: when
    every match of a later part of the content occurs in the part before
    it, the scan of both parts returns what the scan of the first part
    returns. *)
Theorem repeated_matches_change_nothing (W : World) (ms again : list string)
    (Hagain : incl again ms) :
  version_loop W (map VStr (ms ++ again)) "" = version_loop W (map VStr ms) "".
Proof.
  rewrite map_app, version_loop_app.
  destruct (version_loop_strings W ms "") as [v [Hv [_ [_ Hdom]]]].
  rewrite Hv. simpl.
  apply version_loop_settled. intros m Hm. apply Hdom, Hagain, Hm.
Qed.

Lemma repeated_matches_change_nothing_witness :
  version_loop demo (map VStr (["1.2.0"; "1.3.0-rc1"; "1.2.5"] ++ ["1.3.0-rc1"; "1.2.0"])) ""
    = Ok "1.3.0-rc1-0".
Proof.
  rewrite (repeated_matches_change_nothing demo ["1.2.0"; "1.3.0-rc1"; "1.2.5"]
             ["1.3.0-rc1"; "1.2.0"]).
  - reflexivity.
  - intros m [<- | [<- | []]]; simpl; auto.
Defined.

(** ** A fetch that fails *)

(** X23: a failure of the fetch is not caught: it is the outcome of the
    upstream resolver, after the one request and before anything is
    matched, compared or echoed. *)
Theorem upstream_version_fetch_failure (W : World) (self : Toleo) (pkg : string)
    (u : dict) (e : exn) (st : state)
    (Hup : Py.get (Py.get_or_none (cfg self) pkg) "upstream" = Ok (VDict u))
    (Hfetch : fst (scrape W (field (VDict u) "url")
                     (field (VDict u) "use_headers") init_state) = Raise e) :
  upstream_version W self pkg st =
    (Raise e, mkState (stdout st) (net st ++ [upstream_request self pkg])) /\
  fst (upstream_block W self pkg st) = Raise e /\
  fst (compare_block W self pkg st) = Raise e.
Proof.
  assert (Heq : forall st', upstream_version W self pkg st' =
            (Raise e, mkState (stdout st') (net st' ++ [upstream_request self pkg]))).
  { intros st'. rewrite (upstream_version_eq W self pkg u st' Hup).
    rewrite Hfetch. reflexivity. }
  split; [apply Heq |]. split.
  - unfold upstream_block, bind, echo. rewrite Heq. reflexivity.
  - unfold compare_block, bind, echo. rewrite Heq. reflexivity.
Qed.

Lemma upstream_version_fetch_failure_witness :
  upstream_version Lab.world
    (Lab.app "gone" [("gone", package "http://example.test/gone" "v(\d+)")])
    "gone" init_state =
    (Raise (LibraryError "requests.ConnectionError"),
     mkState [] [ReqGet (VStr "http://example.test/gone")]).
Proof.
  apply (upstream_version_fetch_failure Lab.world
           (Lab.app "gone" [("gone", package "http://example.test/gone" "v(\d+)")])
           "gone"
           [("url", VStr "http://example.test/gone"); ("pattern", VStr "v(\d+)");
            ("parser", VStr "regex"); ("use_headers", VBool false)]
           (LibraryError "requests.ConnectionError") init_state); reflexivity.
Defined.
